(** * Healthcare Database Request Assistant: a shallow embedding

    The Python sources embedded here are [main.py],
    [src/data_handlers/document_loader.py], [src/utils/api_validator.py],
    [src/models/llm_chain.py], [src/utils/config.py],
    [src/components/api_key_form.py] and, of
    [src/components/main_content.py], what is shown of a response and of
    the history. Static page furniture (header, sidebar, style sheet, the
    widgets themselves) appears only as a render event.

    Python values are modelled as follows.
    - [str] is a sequence of Unicode code points ([list N]); [len], [in],
      [str.find], slicing and [str.strip] are written out with Python's
      conventions (a failed [find] is [-1], a negative slice bound counts
      from the end).
    - Code that talks to the outside (the file system, Streamlit, the PDF
      loader, the embedding model, FAISS, the generation backend) runs in a
      state-and-exception monad [M] over a [World]; everything such code
      does to the outside is appended to the world's [log].
    - What the outside answers is given by a record [Env] of oracles. *)

From Stdlib Require Import ZArith NArith List String Ascii Lia Bool DecimalString.
From stdpp Require Import base option list gmap.
Import ListNotations.

Local Open Scope Z_scope.

(** ** Python strings *)

Module Py.

Abbreviation str := (list N).

(** A Rocq literal read as a Python [str] (ASCII literals only). *)
Definition lit (s : string) : str :=
  List.map N_of_ascii (list_ascii_of_string s).

Definition len (s : str) : Z := Z.of_nat (length s).

(** [s[i:].startswith(sub)] on the remaining text. *)
Fixpoint startswith (sub s : str) : bool :=
  match sub, s with
  | [], _ => true
  | _ :: _, [] => false
  | c :: sub', d :: s' => N.eqb c d && startswith sub' s'
  end.

(** Scan [s], whose first character has absolute index [i], for the lowest
    index at which [sub] starts; [-1] when there is none. *)
Fixpoint find_at (sub s : str) (i : Z) : Z :=
  if startswith sub s then i
  else match s with
       | [] => -1
       | _ :: s' => find_at sub s' (i + 1)
       end.

(** A slice bound as CPython adjusts it: a negative bound counts from the
    end, and the result is clamped to [0 .. len s]. *)
Definition clamp (s : str) (i : Z) : Z :=
  if i <? 0 then Z.max 0 (i + len s) else Z.min i (len s).

(** [s.find(sub, start)] *)
Definition find (sub s : str) (start : Z) : Z :=
  if len s <? start then -1
  else let lo := clamp s start in
       find_at sub (drop (Z.to_nat lo) s) lo.

(** [sub in s] *)
Definition contains (sub s : str) : bool := 0 <=? find sub s 0.

(** [s[a:b]] *)
Definition slice (s : str) (a b : Z) : str :=
  let lo := clamp s a in
  let hi := clamp s b in
  take (Z.to_nat (hi - lo)) (drop (Z.to_nat lo) s).

(** The characters [str.strip()] removes: CPython's [Py_UNICODE_ISSPACE]. *)
Definition isspace (c : N) : bool :=
  ((9 <=? c) && (c <=? 13) || (28 <=? c) && (c <=? 32)
   || (c =? 133) || (c =? 160) || (c =? 5760)
   || (8192 <=? c) && (c <=? 8202)
   || (c =? 8232) || (c =? 8233) || (c =? 8239) || (c =? 8287)
   || (c =? 12288))%N.

Fixpoint lstrip (s : str) : str :=
  match s with
  | c :: s' => if isspace c then lstrip s' else s
  | [] => []
  end.

Definition rstrip (s : str) : str := rev (lstrip (rev s)).

(** [s.strip()] *)
Definition strip (s : str) : str := rstrip (lstrip s).

End Py.

Import Py.

Definition NEWLINE : str := [10%N].

(** ** main.py, lines 180-187: the action type recorded in the history *)

Definition ACTION_LABEL : str := lit "Action Type:".
Definition ERROR_LABEL : str := lit "ERROR:".

Definition main_action_type (answer : str) : str :=
  if contains ACTION_LABEL answer then
    let action_start := find ACTION_LABEL answer 0 + len ACTION_LABEL in
    let action_end := find NEWLINE answer action_start in
    strip (slice answer action_start action_end)
  else if contains ERROR_LABEL answer then lit "Error"
  else lit "Unknown".

(** src/models/llm_chain.py, lines 49-56 and 74: the fixed message the
    prompt tells the model to answer with. *)
Definition SENTINEL : str :=
  lit "ERROR: The request mentions entities that do not exist in the database schema. Please verify your request and try again.".


(** ** The outside world *)

(** Python exceptions derived from [Exception]: the class, as far as the
    [except] clauses of the program tell classes apart, and [str(e)]. *)
Inductive exn_class := ValueError | OSError | LibraryError.

Record exn := Exn { exn_cls : exn_class; exn_msg : str }.

(** What a library call answers. *)
Inductive result (A : Type) :=
| Ok (a : A)
| Err (e : exn).
Arguments Ok {A} a.
Arguments Err {A} e.

(** What can leave a Python function other than a value: an exception, or
    Streamlit's rerun signal, which derives from [BaseException] and so
    passes through every [except Exception] clause. *)
Inductive signal :=
| Exception (e : exn)
| RerunException.

Inductive outcome (A : Type) :=
| Return (a : A)
| Raise (s : signal).
Arguments Return {A} a.
Arguments Raise {A} s.

Record Document := { page_content : str; metadata : list (str * str) }.

(** The keyword arguments given to [HuggingFaceEmbeddings]:
    [model_name], [model_kwargs['device']] and
    [encode_kwargs['normalize_embeddings']] ([None] when not passed). *)
Record Embeddings := {
  model_name : str;
  device : option str;
  normalize_embeddings : option bool }.

(** A FAISS store, as far as this program can tell two stores apart: the
    documents it was built from and the embedding object it was given. *)
Record VectorStore := {
  vs_documents : list Document;
  vs_embedding : Embeddings }.

(** A retrieval chain: the store behind its retriever and the API key of
    its language model. *)
Record Chain := { chain_store : VectorStore; chain_api_key : str }.

(** A file; [os.remove] of a [locked] file raises [PermissionError]. *)
Record File := { file_data : str; locked : bool }.

(** [st.session_state]; [vectorstore = None] models an absent key. *)
Record Session := {
  history : list (str * str);
  api_key_valid : bool;
  vectorstore : option VectorStore }.

(** What the program does to the outside, in order. *)
Inductive event :=
| StError (msg : str)
| StWarning (msg : str)
| StInfo (msg : str)
| StSuccess (msg : str)
| StMarkdown (body : str)
| StSpinner (msg : str)
| StButton (label : str)
| StDivider
| StExpander (label : str)
| StRender (component : str)
| CallPdfLoader (directory : str)
| CallSplitter (chunk_size chunk_overlap : Z) (docs : list Document)
| CallEmbeddings (cfg : Embeddings)
| CallFromDocuments (docs : list Document) (cfg : Embeddings)
| CallSaveLocal (vs : VectorStore) (path : str)
| CallLoadLocal (path : str) (cfg : Embeddings)
| CallChatModel (model api_key : str)
| CallInvoke (chain : Chain) (input : str).

Record World := {
  fs : gmap str File;
  environ : gmap str str;
  session : Session;
  log : list event }.

(** The installation directory and the answers of the external libraries.
    [None] from a constructor oracle means the call returned normally. *)
Record Env := {
  BASE_DIR : str;
  PyPDFDirectoryLoader_load : str -> result (list Document);
  RecursiveCharacterTextSplitter_split_documents :
    Z -> Z -> list Document -> result (list Document);
  HuggingFaceEmbeddings : Embeddings -> option exn;
  FAISS_from_documents : list Document -> Embeddings -> option exn;
  FAISS_save_local :
    VectorStore -> str -> gmap str File -> option exn * gmap str File;
  FAISS_load_local :
    str -> Embeddings -> gmap str File -> result VectorStore;
  ChatGoogleGenerativeAI : str -> str -> option exn;
  retrieval_chain_invoke : Chain -> str -> result str }.

(** ** The monad of effectful Python code *)

Definition M (A : Type) : Type := World -> outcome A * World.

Definition ret {A} (a : A) : M A := fun w => (Return a, w).

Definition bind {A B} (m : M A) (k : A -> M B) : M B :=
  fun w => match m w with
           | (Return a, w') => k a w'
           | (Raise e, w') => (Raise e, w')
           end.

Definition raise {A} (e : exn) : M A := fun w => (Raise (Exception e), w).

Notation "x <- m ;; k" := (bind m (fun x => k))
  (at level 100, m at next level, right associativity).
Notation "m ;; k" := (bind m (fun _ => k))
  (at level 100, right associativity).

(** [try: m  except Exception as e: h e]; what [m] did before it raised
    stays done. *)
Definition try_except {A} (m : M A) (h : exn -> M A) : M A :=
  fun w => match m w with
           | (Return a, w') => (Return a, w')
           | (Raise (Exception e), w') => h e w'
           | (Raise RerunException, w') => (Raise RerunException, w')
           end.

Definition set_fs (f : gmap str File) (w : World) : World :=
  {| fs := f; environ := environ w; session := session w; log := log w |}.
Definition set_session (s : Session) (w : World) : World :=
  {| fs := fs w; environ := environ w; session := s; log := log w |}.
Definition set_log (l : list event) (w : World) : World :=
  {| fs := fs w; environ := environ w; session := session w; log := l |}.

Definition emit (e : event) : M unit :=
  fun w => (Return tt, set_log (log w ++ [e]) w).

Definition get_session : M Session := fun w => (Return (session w), w).
Definition put_session (s : Session) : M unit :=
  fun w => (Return tt, set_session s w).

Definition outcome_of_result {A} (r : result A) : outcome A :=
  match r with Ok a => Return a | Err e => Raise (Exception e) end.
Definition outcome_of_status (o : option exn) : outcome unit :=
  match o with None => Return tt | Some e => Raise (Exception e) end.

Definition of_result {A} (r : result A) : M A :=
  fun w => (outcome_of_result r, w).
Definition of_status (o : option exn) : M unit :=
  fun w => (outcome_of_status o, w).

(** *** Streamlit *)
Definition st_error (msg : str) : M unit := emit (StError msg).
Definition st_warning (msg : str) : M unit := emit (StWarning msg).
Definition st_info (msg : str) : M unit := emit (StInfo msg).
Definition st_success (msg : str) : M unit := emit (StSuccess msg).
Definition st_markdown (body : str) : M unit := emit (StMarkdown body).
Definition st_spinner (msg : str) : M unit := emit (StSpinner msg).
Definition st_button (label : str) : M unit := emit (StButton label).
Definition st_rerun {A} : M A := fun w => (Raise RerunException, w).

(** *** os *)
Definition os_path_exists (p : str) : M bool :=
  fun w => (Return (bool_decide (is_Some (fs w !! p))), w).

Definition os_remove (p : str) : M unit :=
  fun w => match fs w !! p with
           | None =>
               raise (Exn OSError
                  (lit "[Errno 2] No such file or directory: '" ++ p ++ lit "'")) w
           | Some f =>
               if locked f
               then raise (Exn OSError
                       (lit "[Errno 13] Permission denied: '" ++ p ++ lit "'")) w
               else (Return tt, set_fs (delete p (fs w)) w)
           end.

Definition os_getenv (k : str) : M (option str) :=
  fun w => (Return (environ w !! k), w).

(** [os.path.join(a, b)] for a relative [b]. *)
Definition os_path_join (a b : str) : str :=
  match last a with
  | None => b
  | Some c => if N.eqb c 47 then a ++ b else a ++ lit "/" ++ b
  end.

(** ** The program *)

Section Program.

Context (env : Env).

(** *** src/utils/config.py *)
Definition DATA_DIR : str := os_path_join (BASE_DIR env) (lit "data").
Definition FAISS_DIR : str := os_path_join (BASE_DIR env) (lit "faiss").
Definition FAISS_INDEX_PATH : str := os_path_join FAISS_DIR (lit "healthcare_index").
Definition EMBEDDING_MODEL : str := lit "all-MiniLM-L6-v2".
Definition LLM_MODEL : str := lit "gemini-2.0-flash".
Definition CHUNK_SIZE : Z := 500.
Definition CHUNK_OVERLAP : Z := 100.

(** *** Calls into the libraries: logged, then answered by [env] *)
Definition pdf_loader_load (directory : str) : M (list Document) :=
  emit (CallPdfLoader directory) ;;
  of_result (PyPDFDirectoryLoader_load env directory).

Definition splitter_split_documents (size overlap : Z) (docs : list Document)
  : M (list Document) :=
  emit (CallSplitter size overlap docs) ;;
  of_result (RecursiveCharacterTextSplitter_split_documents env size overlap docs).

Definition new_embeddings (cfg : Embeddings) : M Embeddings :=
  emit (CallEmbeddings cfg) ;;
  of_status (HuggingFaceEmbeddings env cfg) ;;
  ret cfg.

Definition faiss_from_documents (documents : list Document) (embedding : Embeddings)
  : M VectorStore :=
  emit (CallFromDocuments documents embedding) ;;
  of_status (FAISS_from_documents env documents embedding) ;;
  ret {| vs_documents := documents; vs_embedding := embedding |}.

Definition faiss_save_local (vs : VectorStore) (path : str) : M unit :=
  emit (CallSaveLocal vs path) ;;
  fun w => let '(r, f) := FAISS_save_local env vs path (fs w) in
           (outcome_of_status r, set_fs f w).

Definition faiss_load_local (path : str) (embedding : Embeddings) : M VectorStore :=
  emit (CallLoadLocal path embedding) ;;
  fun w => (outcome_of_result (FAISS_load_local env path embedding (fs w)), w).

Definition new_chat_model (model api_key : str) : M unit :=
  emit (CallChatModel model api_key) ;;
  of_status (ChatGoogleGenerativeAI env model api_key).

Definition chain_invoke (chain : Chain) (input : str) : M str :=
  emit (CallInvoke chain input) ;;
  of_result (retrieval_chain_invoke env chain input).

(** *** src/data_handlers/document_loader.py *)

Definition load_documents (directory_path : str) : M (list Document) :=
  try_except
    (docs <- pdf_loader_load directory_path ;;
     ret docs)
    (fun e =>
       st_error (lit "Error loading documents: " ++ exn_msg e) ;;
       ret []).

Definition process_documents (docs : list Document) : M (list Document) :=
  documents <- splitter_split_documents CHUNK_SIZE CHUNK_OVERLAP docs ;;
  ret documents.

Definition save_vectorstore (vectorstore : VectorStore) : M unit :=
  try_except
    (faiss_save_local vectorstore FAISS_INDEX_PATH ;;
     st_success (lit "Vector index saved successfully!"))
    (fun e => st_error (lit "Error saving vector index: " ++ exn_msg e)).

Definition PRIMARY_EMBEDDINGS : Embeddings :=
  {| model_name := EMBEDDING_MODEL;
     device := Some (lit "cpu");
     normalize_embeddings := Some true |}.

Definition FALLBACK_EMBEDDINGS : Embeddings :=
  {| model_name := lit "all-MiniLM-L6-v2";
     device := None;
     normalize_embeddings := None |}.

Definition create_vectorstore (documents : list Document) (save_local : bool)
  : M (option VectorStore) :=
  try_except
    (embeddings <- new_embeddings PRIMARY_EMBEDDINGS ;;
     vectorstore <- faiss_from_documents documents embeddings ;;
     (if save_local then save_vectorstore vectorstore else ret tt) ;;
     ret (Some vectorstore))
    (fun e =>
       st_error (lit "Error creating vector store: " ++ exn_msg e) ;;
       try_except
         (st_info (lit "Trying alternative embedding initialization...") ;;
          embeddings <- new_embeddings FALLBACK_EMBEDDINGS ;;
          vectorstore <- faiss_from_documents documents embeddings ;;
          (if save_local then save_vectorstore vectorstore else ret tt) ;;
          ret (Some vectorstore))
         (fun e2 =>
            st_error (lit "Fallback embedding initialization also failed: "
                        ++ exn_msg e2) ;;
            ret None)).

Definition load_vectorstore : M (option VectorStore) :=
  try_except
    (present <- os_path_exists (FAISS_INDEX_PATH ++ lit ".faiss") ;;
     if present : bool then
       embeddings <- new_embeddings PRIMARY_EMBEDDINGS ;;
       vectorstore <- faiss_load_local FAISS_INDEX_PATH embeddings ;;
       st_success (lit "Loaded existing vector index!") ;;
       ret (Some vectorstore)
     else ret None)
    (fun e =>
       st_error (lit "Error loading vector index: " ++ exn_msg e) ;;
       try_except
         (present <- os_path_exists (FAISS_INDEX_PATH ++ lit ".faiss") ;;
          if present : bool then
            st_info (lit "Trying alternative embedding initialization for loading...") ;;
            embeddings <- new_embeddings FALLBACK_EMBEDDINGS ;;
            vectorstore <- faiss_load_local FAISS_INDEX_PATH embeddings ;;
            st_success (lit "Loaded existing vector index with alternative method!") ;;
            ret (Some vectorstore)
          else ret None)
         (fun e2 =>
            st_error (lit "Fallback loading also failed: " ++ exn_msg e2) ;;
            ret None)).

Definition reset_vectorstore : M bool :=
  try_except
    (has_faiss <- os_path_exists (FAISS_INDEX_PATH ++ lit ".faiss") ;;
     (if has_faiss : bool then os_remove (FAISS_INDEX_PATH ++ lit ".faiss") else ret tt) ;;
     has_pkl <- os_path_exists (FAISS_INDEX_PATH ++ lit ".pkl") ;;
     (if has_pkl : bool then os_remove (FAISS_INDEX_PATH ++ lit ".pkl") else ret tt) ;;
     st_success (lit "Vector index reset successfully!") ;;
     ret true)
    (fun e =>
       st_error (lit "Error resetting vector index: " ++ exn_msg e) ;;
       ret false).

(** *** src/utils/api_validator.py *)

Definition validate_api_key (api_key : str) : M (bool * option str) :=
  match api_key with
  | [] => ret (false, Some (lit "API key is empty"))
  | _ :: _ =>
      try_except
        (new_chat_model LLM_MODEL api_key ;;
         ret (true, None))
        (fun e => ret (false, Some (exn_msg e)))
  end.

(** *** src/models/llm_chain.py *)

Definition setup_llm_chain : M str :=
  api_key <- os_getenv (lit "GOOGLE_API_KEY") ;;
  match api_key with
  | None | Some [] =>
      raise (Exn ValueError
               (lit "Google API key not found. Please provide a valid API key."))
  | Some key =>
      try_except
        (new_chat_model LLM_MODEL key ;;
         ret key)
        (fun e =>
           raise (Exn ValueError
                    (lit "Error initializing LLM: " ++ exn_msg e
                       ++ lit ". Please check your API key.")))
  end.

Definition create_retrieval_chain_with_vectorstore (vectorstore : VectorStore)
  : M Chain :=
  document_chain <- setup_llm_chain ;;
  ret {| chain_store := vectorstore; chain_api_key := document_chain |}.

(** *** src/components/main_content.py *)

Definition display_response (answer : str) : M unit :=
  let is_error := contains ERROR_LABEL answer in
  let style_class :=
    if is_error then lit "error-response" else lit "success-response" in
  st_markdown (lit "<div class='" ++ style_class ++ lit "'>") ;;
  st_markdown (lit "### Response:") ;;
  st_markdown answer ;;
  st_markdown (lit "</div>").

Definition str_of_nat (n : nat) : str :=
  lit (NilEmpty.string_of_uint (Nat.to_uint n)).

Fixpoint display_history_rows (i : nat) (rows : list (str * str)) : M unit :=
  match rows with
  | [] => ret tt
  | (req, act) :: rows' =>
      st_markdown (lit "*Request " ++ str_of_nat (S i) ++ lit ":* " ++ req
                     ++ lit " (Action: " ++ act ++ lit ")") ;;
      emit StDivider ;;
      display_history_rows (S i) rows'
  end.

Definition display_history (h : list (str * str)) : M unit :=
  match h with
  | [] => ret tt
  | _ :: _ =>
      emit (StExpander (lit "Request History")) ;;
      display_history_rows 0 h
  end.

(** *** main.py *)

(** The widget states one script run reads: the sidebar's reset button
    ([render_sidebar]) and the text area and the two buttons of
    [render_input_section]. *)
Record Widgets := {
  reset_index : bool;
  input_text : str;
  submit_button : bool;
  clear_button : bool }.

Definition set_vectorstore (v : option VectorStore) : M unit :=
  s <- get_session ;;
  put_session {| history := history s;
                 api_key_valid := api_key_valid s;
                 vectorstore := v |}.

Definition set_api_key_valid (b : bool) : M unit :=
  s <- get_session ;;
  put_session {| history := history s;
                 api_key_valid := b;
                 vectorstore := vectorstore s |}.

Definition history_append (entry : str * str) : M unit :=
  s <- get_session ;;
  put_session {| history := history s ++ [entry];
                 api_key_valid := api_key_valid s;
                 vectorstore := vectorstore s |}.

Definition SIMPLE_DOCS : list Document :=
  [ {| page_content :=
         lit "This is a test document for healthcare database requests.";
       metadata := [] |} ].

Definition SIMPLE_EMBEDDINGS : Embeddings :=
  {| model_name := lit "all-MiniLM-L6-v2";
     device := Some (lit "cpu");
     normalize_embeddings := None |}.

(** Lines 123-144 and 149-168: the one-document stand-in index. *)
Definition main_simplified_vectorstore : M unit :=
  try_except
    (simple_embeddings <- new_embeddings SIMPLE_EMBEDDINGS ;;
     simple_vectorstore <- faiss_from_documents SIMPLE_DOCS simple_embeddings ;;
     set_vectorstore (Some simple_vectorstore) ;;
     st_info (lit "Using simplified vector database for basic functionality."))
    (fun e2 =>
       st_error (lit "Could not create even a simplified vector database: "
                   ++ exn_msg e2) ;;
       st_error (lit "The application cannot function without a vector database.")).

(** Lines 102-168: make sure the session holds a vector store. *)
Definition main_vectorstore_setup : M unit :=
  s <- get_session ;;
  match vectorstore s with
  | Some _ => ret tt
  | None =>
      try_except
        (loaded <- load_vectorstore ;;
         vs <- match loaded with
               | Some v => ret (Some v)
               | None =>
                   st_info (lit "Attempting to load documents") ;;
                   docs <- load_documents DATA_DIR ;;
                   match docs with
                   | [] =>
                       st_warning (lit "No documents found in " ++ DATA_DIR
                                     ++ lit ". Please check the path.") ;;
                       ret None
                   | _ :: _ =>
                       documents <- process_documents docs ;;
                       create_vectorstore documents true
                   end
               end ;;
         match vs with
         | Some v => set_vectorstore (Some v)
         | None =>
             st_warning (lit "Could not create a proper vector database. Using a simplified version for testing.") ;;
             main_simplified_vectorstore
         end)
        (fun e =>
           st_error (lit "Error setting up the document database: " ++ exn_msg e) ;;
           st_info (lit "Attempting to use a simplified version for testing.") ;;
           main_simplified_vectorstore)
  end.

(** Lines 174-193: the body of the [try] that processes one request. *)
Definition main_request_body (vs : VectorStore) (text : str) : M unit :=
  retrieval_chain <- create_retrieval_chain_with_vectorstore vs ;;
  answer <- chain_invoke retrieval_chain text ;;
  let action_type := main_action_type answer in
  history_append (text, action_type) ;;
  display_response answer.

(** Lines 170-202. *)
Definition main_process_request (ui : Widgets) : M unit :=
  s <- get_session ;;
  match submit_button ui, input_text ui, vectorstore s with
  | true, _ :: _, Some vs =>
      st_spinner (lit "Processing your request...") ;;
      try_except
        (main_request_body vs (input_text ui))
        (fun e =>
           match exn_cls e with
           | ValueError =>
               st_error (lit "API Key Error: " ++ exn_msg e) ;;
               set_api_key_valid false ;;
               st_button (lit "Re-enter API Key")
           | _ =>
               st_error (lit "An error occurred: " ++ exn_msg e)
           end)
  | _, _, _ => ret tt
  end.

(** Lines 80-205: the script once a valid API key is available. *)
Definition main_authenticated (ui : Widgets) : M unit :=
  set_api_key_valid true ;;
  emit (StRender (lit "header")) ;;
  emit (StRender (lit "sidebar")) ;;
  (if reset_index ui then
     done <- reset_vectorstore ;;
     if done : bool then set_vectorstore None ;; st_rerun else ret tt
   else ret tt) ;;
  emit (StRender (lit "input_section")) ;;
  (if clear_button ui then st_rerun else ret tt) ;;
  main_vectorstore_setup ;;
  main_process_request ui ;;
  s <- get_session ;;
  display_history (history s).

End Program.

(** ** Vocabulary of the statements *)

(** [sub] occurs in [s] starting at index [n]. *)
Definition occurs_at (sub s : str) (n : nat) : Prop :=
  ∃ l1 l2, s = l1 ++ sub ++ l2 ∧ length l1 = n.

Definition occurs (sub s : str) : Prop := ∃ n, occurs_at sub s n.

(** What the history records for an answer, case by case: the label
    followed by a line break; no label but an error marker; neither. *)
Inductive action_type_of : str → str → Prop :=
| action_labelled pre v rest :
    (∀ m, (m < length pre)%nat →
          ¬ occurs_at ACTION_LABEL (pre ++ ACTION_LABEL ++ v ++ NEWLINE ++ rest) m) →
    10%N ∉ v →
    action_type_of (pre ++ ACTION_LABEL ++ v ++ NEWLINE ++ rest) (strip v)
| action_error answer :
    ¬ occurs ACTION_LABEL answer →
    occurs ERROR_LABEL answer →
    action_type_of answer (lit "Error")
| action_unknown answer :
    ¬ occurs ACTION_LABEL answer →
    ¬ occurs ERROR_LABEL answer →
    action_type_of answer (lit "Unknown").

(** The world after the events [es] were logged. *)
Definition logged (w : World) (es : list event) : World :=
  set_log (log w ++ es) w.

(** The two companion artifacts of the persisted index. *)
Definition FAISS_FILE (env : Env) : str := FAISS_INDEX_PATH env ++ lit ".faiss".
Definition PKL_FILE (env : Env) : str := FAISS_INDEX_PATH env ++ lit ".pkl".

(** [os.remove p] would not be refused: [p] is absent or not locked. *)
Definition removable (f : gmap str File) (p : str) : bool :=
  match f !! p with
  | Some x => negb (locked x)
  | None => true
  end.

(** ** Sample installations *)


(** Every library call succeeds; the data directory holds no PDF file and
    the backend answers every request with [answer]. *)
Definition sample_env (answer : str) : Env := {|
  BASE_DIR := lit "/app";
  PyPDFDirectoryLoader_load := fun _ => Ok [];
  RecursiveCharacterTextSplitter_split_documents := fun _ _ docs => Ok docs;
  HuggingFaceEmbeddings := fun _ => None;
  FAISS_from_documents := fun _ _ => None;
  FAISS_save_local := fun _ _ f => (None, f);
  FAISS_load_local := fun _ _ _ => Err (Exn LibraryError (lit "could not open index"));
  ChatGoogleGenerativeAI := fun _ _ => None;
  retrieval_chain_invoke := fun _ _ => Ok answer |}.


Definition fresh_session : Session :=
  {| history := []; api_key_valid := true; vectorstore := None |}.

(** A first run: nothing on disk, a key in the environment, no history. *)
Definition fresh_world : World :=
  {| fs := ∅;
     environ := {[ lit "GOOGLE_API_KEY" := lit "AIza-sample" ]};
     session := fresh_session;
     log := [] |}.

Definition plain_file : File := {| file_data := []; locked := false |}.
Definition locked_file : File := {| file_data := []; locked := true |}.

(** Both artifacts on disk, as the files [faiss] and [pkl]. *)
Definition indexed_world (faiss pkl : File) : World :=
  set_fs (<[ lit "/app/faiss/healthcare_index.faiss" := faiss ]>
            (<[ lit "/app/faiss/healthcare_index.pkl" := pkl ]> ∅))
         fresh_world.

Definition SIMPLE_STORE : VectorStore :=
  {| vs_documents := SIMPLE_DOCS; vs_embedding := SIMPLE_EMBEDDINGS |}.

(** A session that already holds an index and one history entry. *)
Definition serving_world : World :=
  set_session {| history := [(lit "Show all expired licenses", lit "Report")];
                 api_key_valid := true;
                 vectorstore := Some SIMPLE_STORE |}
              fresh_world.

Definition sample_request : Widgets :=
  {| reset_index := false;
     input_text := lit "Update the insurance number for patient ID 1042";
     submit_button := true;
     clear_button := false |}.

Definition GOOGLE_API_KEY : str := lit "GOOGLE_API_KEY".

(** The world after a request was answered with [answer]: the calls and
    the rendering are logged and the history has one more entry. *)
Definition answered (w : World) (chain : Chain) (text answer : str) : World :=
  {| fs := fs w;
     environ := environ w;
     session :=
       {| history := history (session w) ++ [(text, main_action_type answer)];
          api_key_valid := api_key_valid (session w);
          vectorstore := vectorstore (session w) |};
     log := log w ++
       [CallChatModel LLM_MODEL (chain_api_key chain);
        CallInvoke chain text;
        StMarkdown (lit "<div class='" ++
                    (if contains ERROR_LABEL answer
                     then lit "error-response" else lit "success-response")
                    ++ lit "'>");
        StMarkdown (lit "### Response:");
        StMarkdown answer;
        StMarkdown (lit "</div>")] |}.

(** The [try] body of the request block, outcome by outcome. *)
(** The world after the stand-in index was attempted. *)
Definition simplified (env : Env) (w : World) : World :=
  match HuggingFaceEmbeddings env SIMPLE_EMBEDDINGS with
  | Some e =>
      logged w
        [CallEmbeddings SIMPLE_EMBEDDINGS;
         StError (lit "Could not create even a simplified vector database: "
                    ++ exn_msg e);
         StError (lit "The application cannot function without a vector database.")]
  | None =>
      match FAISS_from_documents env SIMPLE_DOCS SIMPLE_EMBEDDINGS with
      | Some e =>
          logged w
            [CallEmbeddings SIMPLE_EMBEDDINGS;
             CallFromDocuments SIMPLE_DOCS SIMPLE_EMBEDDINGS;
             StError (lit "Could not create even a simplified vector database: "
                        ++ exn_msg e);
             StError (lit "The application cannot function without a vector database.")]
      | None =>
          logged
            (set_session {| history := history (session w);
                            api_key_valid := api_key_valid (session w);
                            vectorstore := Some SIMPLE_STORE |} w)
            [CallEmbeddings SIMPLE_EMBEDDINGS;
             CallFromDocuments SIMPLE_DOCS SIMPLE_EMBEDDINGS;
             StInfo (lit "Using simplified vector database for basic functionality.")]
      end
  end.

(** The embedding model loads under [cfg] and FAISS builds an index of
    [docs] with it. *)
Definition build_accepted (env : Env) (docs : list Document) (cfg : Embeddings)
  : bool :=
  match HuggingFaceEmbeddings env cfg, FAISS_from_documents env docs cfg with
  | None, None => true
  | _, _ => false
  end.

(** The stand-in index can be built. *)
Definition stand_in_available (env : Env) : bool :=
  match HuggingFaceEmbeddings env SIMPLE_EMBEDDINGS,
        FAISS_from_documents env SIMPLE_DOCS SIMPLE_EMBEDDINGS with
  | None, None => true
  | _, _ => false
  end.

(** What the page shows when no document was found. *)
Definition NO_DOCUMENTS_EVENTS (env : Env) : list event :=
  [StInfo (lit "Attempting to load documents");
   CallPdfLoader (DATA_DIR env);
   StWarning (lit "No documents found in " ++ DATA_DIR env
                ++ lit ". Please check the path.");
   StWarning (lit "Could not create a proper vector database. Using a simplified version for testing.")].

(** An answer whose label sits on the second line. *)
Definition labelled_answer : str :=
  (lit "OK" ++ NEWLINE) ++ ACTION_LABEL ++ lit " Update " ++ NEWLINE
    ++ lit "Target Table(s): Patients".

(** ** Vocabulary of the frame and totality statements *)

(** Every run of [m] relates the world before to the world after by [R]. *)
Definition keeps {A} (R : World → World → Prop) (m : M A) : Prop :=
  ∀ w, R w (m w).2.

(** The component [f] of the world is the same before and after. *)
Definition same {X} (f : World → X) : World → World → Prop :=
  fun w w' => f w' = f w.

(** The log only grows. *)
Definition log_extends : World → World → Prop :=
  fun w w' => ∃ es, log w' = log w ++ es.

(** [R] cannot see new log entries, a change of the session, of the disk. *)
Definition log_blind (R : World → World → Prop) : Prop :=
  ∀ es w, R w (set_log (log w ++ es) w).
Definition session_blind (R : World → World → Prop) : Prop :=
  ∀ s w, R w (set_session s w).
Definition fs_blind (R : World → World → Prop) : Prop :=
  ∀ f w, R w (set_fs f w).

(** [m] never raises; [m] never asks for a rerun. *)
Definition total {A} (m : M A) : Prop := ∀ w, ∃ a, (m w).1 = Return a.
Definition no_rerun {A} (m : M A) : Prop := ∀ w, (m w).1 ≠ Raise RerunException.

Definition session_history (w : World) : list (str * str) := history (session w).
Definition session_store (w : World) : option VectorStore := vectorstore (session w).
Definition session_key_valid (w : World) : bool := api_key_valid (session w).

(** ** src/components/api_key_form.py and the entry point of main.py *)

(** python-dotenv and the built-in [open], as far as the program uses
    them: the environment after [load_dotenv()], the path [find_dotenv()]
    answers (empty when there is none), what [set_key] does to the disk, and
    whether opening a path for writing is refused (a write that fails after
    the file was opened is not modelled). These calls leave no entry in the
    log; what they do is in the world. *)
Record Dotenv := {
  load_dotenv : gmap str File → gmap str str → gmap str str;
  find_dotenv : gmap str File → result str;
  set_key : str → str → str → gmap str File → option exn * gmap str File;
  open_refused : str → gmap str File → option exn }.

(** The widgets of the form: the password field, the check box and the
    submit button. *)
Record FormInput := {
  form_api_key : str;
  remember : bool;
  submitted : bool }.

Definition QUOTE : str := [34%N].

Definition set_environ (e : gmap str str) (w : World) : World :=
  {| fs := fs w; environ := e; session := session w; log := log w |}.

(** [os.environ[k] = v]; a value with a null character is refused. *)
Definition environ_setitem (k v : str) : M unit :=
  fun w => if bool_decide (0%N ∈ v)
           then raise (Exn ValueError (lit "embedded null byte")) w
           else (Return tt, set_environ (<[k := v]> (environ w)) w).

(** [os.environ.pop(k, None)] *)
Definition environ_pop (k : str) : M unit :=
  fun w => (Return tt, set_environ (delete k (environ w)) w).

(** [with open(p, "w") as f: f.write(data)] *)
Definition write_file (dot : Dotenv) (p data : str) : M unit :=
  fun w => match open_refused dot p (fs w) with
           | Some e => raise e w
           | None =>
               (Return tt,
                set_fs (<[p := {| file_data := data;
                                  locked := match fs w !! p with
                                            | Some f => locked f
                                            | None => false
                                            end |}]> (fs w)) w)
           end.

(** [f"{x}"] for a value that may be [None]. *)
Definition format_optional (x : option str) : str :=
  match x with
  | Some s => s
  | None => lit "None"
  end.

Section Entry.

Context (env : Env) (dot : Dotenv).

Definition dotenv_load : M unit :=
  fun w => (Return tt, set_environ (load_dotenv dot (fs w) (environ w)) w).

Definition dotenv_find : M str :=
  fun w => (outcome_of_result (find_dotenv dot (fs w)), w).

Definition dotenv_set_key (path k v : str) : M unit :=
  fun w => let '(r, f) := set_key dot path k v (fs w) in
           (outcome_of_status r, set_fs f w).

(** Lines 53-63 of api_key_form.py: the key is saved for later runs. *)
Definition save_api_key (api_key : str) : M unit :=
  try_except
    (dotenv_path <- dotenv_find ;;
     match dotenv_path with
     | [] =>
         write_file dot (lit ".env")
           (lit "GOOGLE_API_KEY = " ++ QUOTE ++ api_key ++ QUOTE) ;;
         st_success (lit "API key saved to new .env file!")
     | _ :: _ =>
         dotenv_set_key dotenv_path (lit "GOOGLE_API_KEY") api_key ;;
         st_success (lit "API key saved to existing .env file!")
     end)
    (fun e =>
       st_error (lit "Error saving API key to .env file: " ++ exn_msg e) ;;
       st_info (lit "The application will still work for this session, but you'll need to enter the API key again next time.")).

Definition render_api_key_form (form : FormInput) : M bool :=
  st_markdown (lit "<h1 class='main-header'>Healthcare Database Request Assistant "
                 ++ [127973%N] ++ lit "</h1>") ;;
  st_warning ([9888%N; 65039%N] ++ lit " Google API Key Not Found") ;;
  emit (StRender (lit "api_key_instructions")) ;;
  emit (StRender (lit "api_key_form")) ;;
  match submitted form, form_api_key form with
  | true, _ :: _ =>
      let api_key := form_api_key form in
      st_spinner (lit "Validating API key...") ;;
      r <- validate_api_key env api_key ;;
      let '(is_valid, error_message) := r in
      if is_valid : bool then
        environ_setitem (lit "GOOGLE_API_KEY") api_key ;;
        (if remember form then save_api_key api_key else ret tt) ;;
        ret true
      else
        st_error (lit "Invalid API key: " ++ format_optional error_message) ;;
        st_info (lit "Please check your API key and try again.") ;;
        ret false
  | _, _ => ret false
  end.

(** main.py, lines 69-78: the form is shown; a key it yields marks the
    session valid and asks for a rerun, otherwise the script ends here. *)
Definition main_api_key_gate (form : FormInput) : M unit :=
  api_key_provided <- render_api_key_form form ;;
  if api_key_provided : bool then set_api_key_valid true ;; st_rerun
  else ret tt.

(** main.py, lines 30-79 and then [main_authenticated]. The session record
    reads an absent ['history'] as the empty list and an absent
    ['api_key_valid'] as [False], which is what lines 46-49 establish. *)
Definition main (form : FormInput) (ui : Widgets) : M unit :=
  emit (StRender (lit "page_config")) ;;
  emit (StRender (lit "custom_css")) ;;
  dotenv_load ;;
  found <- os_getenv (lit "GOOGLE_API_KEY") ;;
  s <- get_session ;;
  api_key <-
    match found with
    | Some (c :: k) =>
        if api_key_valid s then ret found
        else
          r <- validate_api_key env (c :: k) ;;
          let '(is_valid, error_message) := r in
          if is_valid : bool then ret found
          else
            st_error (lit "Invalid API key in environment: "
                        ++ format_optional error_message) ;;
            environ_pop (lit "GOOGLE_API_KEY") ;;
            ret None
    | _ => ret found
    end ;;
  s <- get_session ;;
  match api_key, api_key_valid s with
  | None, false | Some [], false => main_api_key_gate form
  | _, _ => main_authenticated env ui
  end.

End Entry.

(** One attempt to load the persisted index with the embedding
    configuration [cfg]: the store, unless the embedding model or
    [FAISS.load_local] fails. *)
Definition load_attempt (env : Env) (cfg : Embeddings) (f : gmap str File)
  : option VectorStore :=
  match HuggingFaceEmbeddings env cfg with
  | Some _ => None
  | None =>
      match FAISS_load_local env (FAISS_INDEX_PATH env) cfg f with
      | Ok v => Some v
      | Err _ => None
      end
  end.

(** The last thing the page says when no index could be set up. *)
Definition CANNOT_FUNCTION : event :=
  StError (lit "The application cannot function without a vector database.").

(** The session holds an index, or the page ends with that error. *)
Definition ready_or_reported (w : World) : Prop :=
  is_Some (vectorstore (session w)) ∨ last (log w) = Some CANNOT_FUNCTION.

(** The world after the index was built from [chunks] under the primary
    configuration, saved and stored in the session. *)
Definition built (env : Env) (chunks : list Document) (w : World) : World :=
  let store := {| vs_documents := chunks; vs_embedding := PRIMARY_EMBEDDINGS |} in
  let saved := FAISS_save_local env store (FAISS_INDEX_PATH env) (fs w) in
  {| fs := saved.2;
     environ := environ w;
     session := {| history := history (session w);
                   api_key_valid := api_key_valid (session w);
                   vectorstore := Some store |};
     log := log w ++
       [CallEmbeddings PRIMARY_EMBEDDINGS;
        CallFromDocuments chunks PRIMARY_EMBEDDINGS;
        CallSaveLocal store (FAISS_INDEX_PATH env);
        match saved.1 with
        | None => StSuccess (lit "Vector index saved successfully!")
        | Some e => StError (lit "Error saving vector index: " ++ exn_msg e)
        end] |}.

(** *** More sample installations *)

Definition manual_page : Document :=
  {| page_content := lit "Patients (patient_id, name, gender, date_of_birth)";
     metadata := [(lit "source", lit "/app/data/schema.pdf"); (lit "page", lit "0")] |}.

(** The data directory holds one PDF page; every library call succeeds. *)
Definition stocked_env : Env := {|
  BASE_DIR := lit "/app";
  PyPDFDirectoryLoader_load := fun _ => Ok [manual_page];
  RecursiveCharacterTextSplitter_split_documents := fun _ _ docs => Ok docs;
  HuggingFaceEmbeddings := fun _ => None;
  FAISS_from_documents := fun _ _ => None;
  FAISS_save_local := fun _ p f =>
    (None, <[p ++ lit ".faiss" := plain_file]> (<[p ++ lit ".pkl" := plain_file]> f));
  FAISS_load_local := fun _ cfg _ =>
    Ok {| vs_documents := [manual_page]; vs_embedding := cfg |};
  ChatGoogleGenerativeAI := fun _ _ => None;
  retrieval_chain_invoke := fun _ _ => Ok [] |}.

(** As [stocked_env], but the splitter fails, and so does the backend. *)
Definition faulty_env : Env := {|
  BASE_DIR := lit "/app";
  PyPDFDirectoryLoader_load := fun _ => Ok [manual_page];
  RecursiveCharacterTextSplitter_split_documents := fun _ _ _ =>
    Err (Exn LibraryError (lit "cannot split"));
  HuggingFaceEmbeddings := fun _ => None;
  FAISS_from_documents := fun _ _ => None;
  FAISS_save_local := fun _ _ f => (None, f);
  FAISS_load_local := fun _ _ _ => Err (Exn LibraryError (lit "could not open index"));
  ChatGoogleGenerativeAI := fun _ _ => None;
  retrieval_chain_invoke := fun _ _ => Err (Exn LibraryError (lit "503 unavailable")) |}.

(** What [display_history] puts on the page for the entry at position [i]
    and for a whole history. *)
Definition history_row (i : nat) (entry : str * str) : list event :=
  [StMarkdown (lit "*Request " ++ str_of_nat (S i) ++ lit ":* " ++ entry.1
                 ++ lit " (Action: " ++ entry.2 ++ lit ")");
   StDivider].

Definition history_events (h : list (str * str)) : list event :=
  match h with
  | [] => []
  | _ :: _ => StExpander (lit "Request History") :: concat (imap history_row h)
  end.

(** The history after is the history before, with at most one entry
    appended. *)
Definition history_grows (w w' : World) : Prop :=
  ∃ tail, history (session w') = history (session w) ++ tail
          ∧ (length tail ≤ 1)%nat.

(** The events with which the authenticated part of the script starts. *)
Definition PAGE_TOP : list event :=
  [StRender (lit "header"); StRender (lit "sidebar")].

Definition with_key_valid (w : World) : World :=
  set_session {| history := history (session w);
                 api_key_valid := true;
                 vectorstore := vectorstore (session w) |} w.

(** What [render_api_key_form] always puts on the page. *)
Definition FORM_PAGE : list event :=
  [StMarkdown (lit "<h1 class='main-header'>Healthcare Database Request Assistant "
                 ++ [127973%N] ++ lit "</h1>");
   StWarning ([9888%N; 65039%N] ++ lit " Google API Key Not Found");
   StRender (lit "api_key_instructions");
   StRender (lit "api_key_form")].

(** The form cannot yield a key: it was not submitted, or the field is
    empty, or the chat model cannot be constructed with the key. *)
Definition form_rejected (env : Env) (form : FormInput) : Prop :=
  submitted form = false
  ∨ form_api_key form = []
  ∨ is_Some (ChatGoogleGenerativeAI env LLM_MODEL (form_api_key form)).



(** The world in which [main] reaches the gate: the page is configured
    and [load_dotenv] has filled the environment. *)
Definition at_gate (dot : Dotenv) (w : World) : World :=
  set_environ (load_dotenv dot (fs w) (environ w))
    (logged w [StRender (lit "page_config"); StRender (lit "custom_css")]).

(** The key that the environment offers at the gate is a non-empty key
    that the chat model accepts. *)
Definition environment_key_accepted (env : Env) (e : gmap str str) : bool :=
  match e !! GOOGLE_API_KEY with
  | Some (c :: k) =>
      match ChatGoogleGenerativeAI env LLM_MODEL (c :: k) with
      | None => true
      | Some _ => false
      end
  | _ => false
  end.

(** *** Sample forms and hosts *)

(** No [.env] file anywhere; writing is permitted. *)
Definition bare_host : Dotenv := {|
  load_dotenv := fun _ e => e;
  find_dotenv := fun _ => Ok [];
  set_key := fun _ _ _ f => (None, f);
  open_refused := fun _ _ => None |}.

(** As [bare_host], but the working directory is read-only. *)
Definition read_only_host : Dotenv := {|
  load_dotenv := fun _ e => e;
  find_dotenv := fun _ => Ok [];
  set_key := fun _ _ _ f => (None, f);
  open_refused := fun p _ =>
    Some (Exn OSError (lit "[Errno 13] Permission denied: '" ++ p ++ lit "'")) |}.

(** As [sample_env], but the chat model rejects every key. *)
Definition rejecting_env : Env := {|
  BASE_DIR := lit "/app";
  PyPDFDirectoryLoader_load := fun _ => Ok [];
  RecursiveCharacterTextSplitter_split_documents := fun _ _ docs => Ok docs;
  HuggingFaceEmbeddings := fun _ => None;
  FAISS_from_documents := fun _ _ => None;
  FAISS_save_local := fun _ _ f => (None, f);
  FAISS_load_local := fun _ _ _ => Err (Exn LibraryError (lit "could not open index"));
  ChatGoogleGenerativeAI := fun _ _ =>
    Some (Exn ValueError (lit "API key not valid"));
  retrieval_chain_invoke := fun _ _ => Ok [] |}.

Definition filled_form : FormInput :=
  {| form_api_key := lit "AIza-typed"; remember := true; submitted := true |}.

Definition untouched_form : FormInput :=
  {| form_api_key := []; remember := true; submitted := false |}.

(** A first visit: nothing on disk, nothing in the environment, the key
    not validated. *)
Definition visitor_world : World :=
  {| fs := ∅;
     environ := ∅;
     session := {| history := []; api_key_valid := false; vectorstore := None |};
     log := [] |}.

Definition idle_widgets : Widgets :=
  {| reset_index := false; input_text := []; submit_button := false;
     clear_button := false |}.

(** A later visit: the key is in the environment and not yet validated. *)
Definition returning_world : World :=
  set_environ {[ lit "GOOGLE_API_KEY" := lit "AIza-sample" ]} visitor_world.

Definition reset_widgets : Widgets :=
  {| reset_index := true; input_text := []; submit_button := false;
     clear_button := false |}.

Definition clear_widgets : Widgets :=
  {| reset_index := false; input_text := lit "old text"; submit_button := false;
     clear_button := true |}.

Definition UNAVAILABLE : exn := Exn LibraryError (lit "503 unavailable").

(** ** Python strings: [find], [in] and slices against occurrences *)

Opaque lit.

Ltac run :=
  unfold st_error, st_warning, st_info, st_success, st_markdown, st_spinner,
    st_button, st_rerun, bind, ret, raise, try_except, emit, of_result,
    of_status, get_session, put_session; simpl.

Section Strings.

Implicit Types sub s pre v rest : str.

Lemma startswith_spec sub s :
  startswith sub s = true ↔ ∃ t, s = sub ++ t.
Proof.
  revert s. induction sub as [|c sub IH]; intros s; simpl.
  - split; [intros _; by exists s | done].
  - destruct s as [|d s]; simpl.
    + split; [done | intros [t Ht]; discriminate].
    + rewrite andb_true_iff, N.eqb_eq, IH. split.
      * intros [-> [t ->]]. by exists t.
      * intros [t Ht]. injection Ht as -> ->. eauto.
Qed.

Lemma occurs_at_0 sub s : occurs_at sub s 0 ↔ startswith sub s = true.
Proof.
  rewrite startswith_spec. split.
  - intros (l1 & l2 & -> & Hl). destruct l1; [|done]. by exists l2.
  - intros [t ->]. by exists [], t.
Qed.

Lemma occurs_at_S sub c s n : occurs_at sub (c :: s) (S n) ↔ occurs_at sub s n.
Proof.
  split.
  - intros (l1 & l2 & Hs & Hl). destruct l1 as [|d l1]; [done|].
    simpl in *. injection Hs as -> ->. exists l1, l2. split; [done | lia].
  - intros (l1 & l2 & -> & Hl). exists (c :: l1), l2. split; [done | simpl; lia].
Qed.

Lemma occurs_at_nil sub n : occurs_at sub [] n → n = 0%nat.
Proof. intros (l1 & l2 & Hs & <-). by destruct l1. Qed.

Lemma find_at_range sub s i :
  find_at sub s i = -1 ∨
  ∃ n : nat, find_at sub s i = i + Z.of_nat n ∧ occurs_at sub s n.
Proof.
  revert i. induction s as [|c s IH]; intros i; simpl.
  - destruct (startswith sub []) eqn:E; [|by left].
    right. exists 0%nat. split; [lia | by apply occurs_at_0].
  - destruct (startswith sub (c :: s)) eqn:E.
    + right. exists 0%nat. split; [lia | by apply occurs_at_0].
    + destruct (IH (i + 1)) as [H | (n & Hn & Ho)]; [by left|].
      right. exists (S n). split; [lia | by apply occurs_at_S].
Qed.

Lemma find_at_le sub s n i :
  occurs_at sub s n → i <= find_at sub s i <= i + Z.of_nat n.
Proof.
  revert n i. induction s as [|c s IH]; intros n i Ho; simpl.
  - apply occurs_at_nil in Ho as Hn. subst n.
    apply occurs_at_0 in Ho. rewrite Ho. lia.
  - destruct (startswith sub (c :: s)) eqn:E; [lia|].
    destruct n as [|n].
    + apply occurs_at_0 in Ho. congruence.
    + apply occurs_at_S in Ho. specialize (IH n (i + 1) Ho). lia.
Qed.

Lemma find_at_first sub s n i :
  0 <= i →
  occurs_at sub s n →
  (∀ m, (m < n)%nat → ¬ occurs_at sub s m) →
  find_at sub s i = i + Z.of_nat n.
Proof.
  intros Hi Ho Hmin.
  pose proof (find_at_le sub s n i Ho) as Hle.
  destruct (find_at_range sub s i) as [H | (k & Hk & Hok)]; [lia|].
  destruct (decide (k < n)%nat) as [Hlt|]; [|lia].
  by destruct (Hmin k Hlt).
Qed.

Lemma find_at_absent sub s i :
  0 <= i → ¬ occurs sub s → find_at sub s i = -1.
Proof.
  intros Hi Hno.
  destruct (find_at_range sub s i) as [H | (k & Hk & Hok)]; [done|].
  destruct Hno. by exists k.
Qed.

Lemma find_0 sub s : find sub s 0 = find_at sub s 0.
Proof.
  unfold find, clamp, len. 
  destruct (Z.ltb_spec (Z.of_nat (length s)) 0); [lia|].
  simpl. rewrite Z.min_l by lia. done.
Qed.

Lemma contains_true sub s : occurs sub s → contains sub s = true.
Proof.
  intros [n Ho]. unfold contains. rewrite find_0.
  pose proof (find_at_le sub s n 0 Ho). apply Z.leb_le. lia.
Qed.

Lemma contains_false sub s : ¬ occurs sub s → contains sub s = false.
Proof.
  intros Hno. unfold contains. rewrite find_0, find_at_absent by (done || lia). done.
Qed.

Lemma contains_spec sub s : contains sub s = true ↔ occurs sub s.
Proof.
  split; [|apply contains_true].
  unfold contains. rewrite find_0. intros H%Z.leb_le.
  destruct (find_at_range sub s 0) as [E | (k & Hk & Hok)]; [lia|]. by exists k.
Qed.

Lemma occurs_at_first_part (c : N) v rest m :
  c ∉ v → (m < length v)%nat → ¬ occurs_at [c] (v ++ [c] ++ rest) m.
Proof.
  intros Hv Hm (l1 & l2 & Hs & Hl). apply Hv.
  assert ((v ++ [c] ++ rest) !! m = Some c) as Hc.
  { rewrite Hs. rewrite lookup_app_r by lia. by rewrite Hl, Nat.sub_diag. }
  rewrite lookup_app_l in Hc by done.
  by apply list_elem_of_lookup_2 in Hc.
Qed.

Lemma find_from sub pre s :
  find sub (pre ++ s) (len pre) = find_at sub s (len pre).
Proof.
  unfold find, clamp, len. rewrite length_app.
  destruct (Z.ltb_spec (Z.of_nat (length pre + length s)) (Z.of_nat (length pre))); [lia|].
  destruct (Z.ltb_spec (Z.of_nat (length pre)) 0); [lia|].
  rewrite Z.min_l by lia. rewrite Nat2Z.id.
  by rewrite drop_app_length.
Qed.

Lemma slice_middle pre v post :
  slice (pre ++ v ++ post) (len pre) (len pre + len v) = v.
Proof.
  unfold slice, clamp, len. rewrite !length_app.
  destruct (Z.ltb_spec (Z.of_nat (length pre)) 0); [lia|].
  destruct (Z.ltb_spec (Z.of_nat (length pre) + Z.of_nat (length v)) 0); [lia|].
  rewrite !Z.min_l by lia.
  rewrite Nat2Z.id, drop_app_length.
  replace (Z.to_nat _) with (length v) by lia.
  by rewrite take_app_length.
Qed.

Lemma not_occurs_char (c : N) v : c ∉ v → ¬ occurs [c] v.
Proof.
  intros Hv (n & l1 & l2 & -> & _). apply Hv.
  apply elem_of_app. right. by left.
Qed.

Lemma slice_to_last pre v :
  pre ≠ [] →
  slice (pre ++ v) (len pre) (-1) = take (length v - 1) v.
Proof.
  intros Hpre. unfold slice, clamp, len. rewrite length_app.
  assert (0 < length pre)%nat by (destruct pre; [done | simpl; lia]).
  destruct (Z.ltb_spec (Z.of_nat (length pre)) 0); [lia|].
  change (-1 <? 0) with true. cbv iota.
  rewrite Z.min_l, Z.max_r by lia.
  rewrite Nat2Z.id, drop_app_length. f_equal. lia.
Qed.

Lemma occurs_at_startswith sub s m :
  occurs_at sub s m → startswith sub (drop m s) = true.
Proof.
  intros (l1 & l2 & -> & <-). rewrite drop_app_length.
  apply startswith_spec. by exists l2.
Qed.

End Strings.

(** C9, as amended. The action type recorded for an answer: when the first
    "Action Type:" label is followed by a line break, the text between the
    label and that line break with surrounding whitespace stripped; when
    there is no label, "Error" if the answer contains "ERROR:" and "Unknown"
    otherwise. *)
Theorem main_action_type_correct answer action :
  action_type_of answer action → main_action_type answer = action.
Proof.
  intros [pre v rest Hfirst Hv | a Hno Herr | a Hno Hnerr]; unfold main_action_type.
  - set (a := pre ++ ACTION_LABEL ++ v ++ NEWLINE ++ rest) in *.
    assert (occurs_at ACTION_LABEL a (length pre)) as Ho by (by exists pre, (v ++ NEWLINE ++ rest)).
    rewrite contains_true by (by exists (length pre)).
    rewrite find_0, (find_at_first _ _ (length pre)) by (done || lia).
    replace (0 + Z.of_nat (length pre) + len ACTION_LABEL)
      with (len (pre ++ ACTION_LABEL)) by (unfold len; rewrite length_app; lia).
    subst a. rewrite (app_assoc pre ACTION_LABEL).
    rewrite find_from.
    rewrite (find_at_first _ _ (length v)).
    + f_equal. apply slice_middle.
    + unfold len; lia.
    + by exists v, rest.
    + intros m Hm. by apply occurs_at_first_part.
  - rewrite contains_false by done. by rewrite contains_true.
  - by rewrite !contains_false.
Qed.

(** X27. The slip behind the second failure of C9: when no line break
    follows the first label, [find] answers [-1], the slice stops one
    character short of the end, and the value loses its last character. *)
Lemma main_action_type_unterminated pre v :
  (∀ m, (m < length pre)%nat → ¬ occurs_at ACTION_LABEL (pre ++ ACTION_LABEL ++ v) m) →
  10%N ∉ v →
  main_action_type (pre ++ ACTION_LABEL ++ v) = strip (take (length v - 1) v).
Proof.
  intros Hfirst Hv. unfold main_action_type.
  assert (occurs_at ACTION_LABEL (pre ++ ACTION_LABEL ++ v) (length pre)) as Ho
    by (by exists pre, v).
  rewrite contains_true by (by exists (length pre)).
  rewrite find_0, (find_at_first _ _ (length pre)) by (done || lia).
  replace (0 + Z.of_nat (length pre) + len ACTION_LABEL)
    with (len (pre ++ ACTION_LABEL)) by (unfold len; rewrite length_app; lia).
  rewrite (app_assoc pre ACTION_LABEL).
  rewrite find_from, find_at_absent.
  - f_equal. apply slice_to_last. by destruct pre.
  - unfold len; lia.
  - by apply not_occurs_char.
Qed.

Transparent lit.

(** The theorem at an answer whose label stands on its second line. *)
Lemma main_action_type_correct_witness :
  action_type_of labelled_answer (lit "Update")
  ∧ main_action_type labelled_answer = lit "Update".
Proof.
  assert (action_type_of labelled_answer (lit "Update")) as H.
  { change (lit "Update") with (strip (lit " Update ")).
    apply action_labelled.
    - intros m Hm Ho%occurs_at_startswith.
      do 3 (destruct m as [|m]; [vm_compute in Ho; discriminate Ho|]).
      simpl in Hm. lia.
    - intros Hin. vm_compute in Hin.
      repeat (apply elem_of_cons in Hin as [Hin|Hin]; [discriminate Hin|]).
      by apply elem_of_nil in Hin. }
  split; [exact H | exact (main_action_type_correct _ _ H)].
Defined.

(** C9, as written, fails twice. The fixed error message carries no label
    and is recorded as "Error", not "Unknown"; and a label on a last line
    that no line break ends loses the last character of its value. *)
Lemma main_action_type_differs :
  (¬ occurs ACTION_LABEL SENTINEL ∧ main_action_type SENTINEL ≠ lit "Unknown")
  ∧ main_action_type (ACTION_LABEL ++ lit " Update") ≠ strip (lit " Update")
  ∧ main_action_type (ACTION_LABEL ++ lit " Update") = lit "Updat".
Proof.
  split; [split|split].
  - intros H%contains_spec. vm_compute in H. discriminate H.
  - vm_compute. discriminate.
  - vm_compute. discriminate.
  - vm_compute. reflexivity.
Qed.

Opaque lit.

(** ** Loading documents *)

(** [load_documents], outcome by outcome. *)
Lemma load_documents_run env dir w :
  load_documents env dir w =
    match PyPDFDirectoryLoader_load env dir with
    | Ok docs => (Return docs, logged w [CallPdfLoader dir])
    | Err e =>
        (Return [],
         logged w [CallPdfLoader dir;
                   StError (lit "Error loading documents: " ++ exn_msg e)])
    end.
Proof.
  unfold load_documents, pdf_loader_load, logged. run.
  destruct (PyPDFDirectoryLoader_load env dir) as [docs|e]; simpl; [done|].
  unfold set_log; simpl. by rewrite <- app_assoc.
Qed.



(** [process_documents] is one call of the library's splitter, with the
    configured chunk size and overlap. *)
Lemma process_documents_run env docs w :
  process_documents env docs w =
    (outcome_of_result
       (RecursiveCharacterTextSplitter_split_documents env 500 100 docs),
     logged w [CallSplitter 500 100 docs]).
Proof.
  unfold process_documents, splitter_split_documents, logged. run.
  by destruct (RecursiveCharacterTextSplitter_split_documents env _ _ docs).
Qed.

(** ** Validating the API key *)

(** C7. On the empty key [validate_api_key] answers
    [(False, "API key is empty")] and leaves the world as it was: nothing
    is logged, so the chat model was not constructed. *)
Theorem validate_api_key_empty env w :
  validate_api_key env [] w
    = (Return (false, Some (lit "API key is empty")), w).
Proof. reflexivity. Qed.

Lemma validate_api_key_nonempty env c key w :
  validate_api_key env (c :: key) w =
    (Return match ChatGoogleGenerativeAI env (LLM_MODEL) (c :: key) with
            | None => (true, None)
            | Some e => (false, Some (exn_msg e))
            end,
     logged w [CallChatModel LLM_MODEL (c :: key)]).
Proof.
  unfold validate_api_key, new_chat_model, logged. run.
  by destruct (ChatGoogleGenerativeAI env LLM_MODEL (c :: key)).
Qed.

(** ** The persisted index *)

Section Artifacts.

Context (env : Env).

Lemma artifacts_distinct : FAISS_FILE env ≠ PKL_FILE env.
Proof.
  unfold FAISS_FILE, PKL_FILE. intros H%app_inv_head.
  vm_compute in H. discriminate H.
Qed.

(** [reset_vectorstore], outcome by outcome. *)
Lemma reset_vectorstore_cases w :
  reset_vectorstore env w =
    if removable (fs w) (FAISS_FILE env) then
      if removable (fs w) (PKL_FILE env) then
        (Return true,
         set_log (log w ++ [StSuccess (lit "Vector index reset successfully!")])
           (set_fs (delete (PKL_FILE env) (delete (FAISS_FILE env) (fs w))) w))
      else
        (Return false,
         set_log (log w ++ [StError (lit "Error resetting vector index: "
                    ++ lit "[Errno 13] Permission denied: '" ++ PKL_FILE env ++ lit "'")])
           (set_fs (delete (FAISS_FILE env) (fs w)) w))
    else
      (Return false,
       logged w [StError (lit "Error resetting vector index: "
                  ++ lit "[Errno 13] Permission denied: '" ++ FAISS_FILE env ++ lit "'")]).
Proof.
  pose proof artifacts_distinct as Hne.
  unfold reset_vectorstore, removable, os_path_exists, os_remove, logged.
  fold (FAISS_FILE env) (PKL_FILE env).
  set (F := FAISS_FILE env) in *. set (P := PKL_FILE env) in *. run.
  destruct (fs w !! F) as [f|] eqn:EF; simpl; rewrite ?EF; simpl.
  - destruct (locked f) eqn:Lf; simpl; [done|].
    rewrite !lookup_delete_ne by done.
    destruct (fs w !! P) as [p|] eqn:EP; simpl;
      rewrite ?lookup_delete_ne, ?EP by done; simpl.
    + by destruct (locked p) eqn:Lp; simpl.
    + rewrite (delete_id (delete F (fs w)) P); [done|].
      by rewrite lookup_delete_ne.
  - rewrite (delete_id (fs w) F) by done.
    destruct (fs w !! P) as [p|] eqn:EP; simpl; rewrite ?EP; simpl.
    + by destruct (locked p) eqn:Lp; simpl.
    + rewrite (delete_id (fs w) P) by done. by destruct w.
Qed.

(** [save_vectorstore] is one call of the library's [save_local], whose
    failure is reported and not raised. *)
Lemma save_vectorstore_run vs w :
  save_vectorstore env vs w =
    let r := FAISS_save_local env vs (FAISS_INDEX_PATH env) (fs w) in
    (Return tt,
     set_log (log w ++ [CallSaveLocal vs (FAISS_INDEX_PATH env);
                        match r.1 with
                        | None => StSuccess (lit "Vector index saved successfully!")
                        | Some e => StError (lit "Error saving vector index: " ++ exn_msg e)
                        end])
       (set_fs r.2 w)).
Proof.
  unfold save_vectorstore, faiss_save_local. run.
  destruct (FAISS_save_local env vs (FAISS_INDEX_PATH env) (fs w)) as [[e|] f];
    simpl; unfold set_log, set_fs; simpl; by rewrite <- app_assoc.
Qed.

(** X3. What [create_vectorstore] returns: the store of the first
    configuration that is accepted, the primary one before the fallback,
    and [None] when neither is. Only the primary configuration asks for
    normalized embeddings. *)
Lemma create_vectorstore_result documents save_local w :
  (create_vectorstore env documents save_local w).1 =
    Return (if build_accepted env documents PRIMARY_EMBEDDINGS
            then Some {| vs_documents := documents;
                         vs_embedding := PRIMARY_EMBEDDINGS |}
            else if build_accepted env documents FALLBACK_EMBEDDINGS
            then Some {| vs_documents := documents;
                         vs_embedding := FALLBACK_EMBEDDINGS |}
            else None).
Proof.
  unfold create_vectorstore, build_accepted, new_embeddings, faiss_from_documents.
  destruct save_local; run.
  all: destruct (HuggingFaceEmbeddings env PRIMARY_EMBEDDINGS); simpl;
    [|destruct (FAISS_from_documents env documents PRIMARY_EMBEDDINGS); simpl;
      [|by rewrite ?save_vectorstore_run]].
  all: destruct (HuggingFaceEmbeddings env FALLBACK_EMBEDDINGS); simpl; [done|];
    destruct (FAISS_from_documents env documents FALLBACK_EMBEDDINGS); simpl;
    [done|]; by rewrite ?save_vectorstore_run.
Qed.

Lemma fallback_not_normalized :
  normalize_embeddings PRIMARY_EMBEDDINGS = Some true
  ∧ normalize_embeddings FALLBACK_EMBEDDINGS = None.
Proof. done. Qed.

Lemma removable_lookup f p :
  removable f p = false → is_Some (f !! p).
Proof. unfold removable. destruct (f !! p); [eauto | done]. Qed.

(** C3, as amended. [reset_vectorstore] deletes the vector-data file first
    and the chunk/metadata file second, and never raises: it returns [True]
    with both files absent, or [False] with the disk as it was, or [False]
    with the vector-data file deleted and the chunk/metadata file still
    there. [save_vectorstore] never raises and leaves the disk exactly as
    the library's one [save_local] call left it, with no rollback. *)
Theorem artifacts_after_reset_and_save w vs :
  let r := reset_vectorstore env w in
  let s := save_vectorstore env vs w in
  (r.1 = Return true
     ∧ fs r.2 !! FAISS_FILE env = None ∧ fs r.2 !! PKL_FILE env = None
   ∨ r.1 = Return false ∧ fs r.2 = fs w
   ∨ r.1 = Return false
     ∧ fs r.2 = delete (FAISS_FILE env) (fs w)
     ∧ is_Some (fs r.2 !! PKL_FILE env))
  ∧ s.1 = Return tt
  ∧ fs s.2 = (FAISS_save_local env vs (FAISS_INDEX_PATH env) (fs w)).2.
Proof.
  pose proof artifacts_distinct as Hne.
  simpl. rewrite reset_vectorstore_cases, save_vectorstore_run.
  split; [|done].
  destruct (removable (fs w) (FAISS_FILE env)) eqn:RF; [|right; by left].
  destruct (removable (fs w) (PKL_FILE env)) eqn:RP; simpl.
  - left. split; [done|].
    by rewrite lookup_delete_ne, !lookup_delete_eq.
  - right; right. split; [done|]. split; [done|].
    rewrite lookup_delete_ne by done. by apply removable_lookup.
Qed.

(** C6, as amended. Where the OS lets the process delete the artifacts
    that are there, two consecutive calls of [reset_vectorstore] both
    return [True]; after the first both artifacts are absent and the second
    changes nothing on disk; and a call on absent artifacts changes nothing
    on disk. *)
Theorem reset_vectorstore_idempotent w :
  removable (fs w) (FAISS_FILE env) = true →
  removable (fs w) (PKL_FILE env) = true →
  ∃ w1 w2,
    reset_vectorstore env w = (Return true, w1)
    ∧ reset_vectorstore env w1 = (Return true, w2)
    ∧ fs w1 !! FAISS_FILE env = None ∧ fs w1 !! PKL_FILE env = None
    ∧ fs w2 = fs w1
    ∧ (fs w !! FAISS_FILE env = None → fs w !! PKL_FILE env = None →
       fs w1 = fs w).
Proof.
  pose proof artifacts_distinct as Hne.
  intros RF RP. eexists _, _.
  split; [by rewrite reset_vectorstore_cases, RF, RP|].
  assert (∀ f : gmap str File,
            delete (PKL_FILE env) (delete (FAISS_FILE env) f) !! FAISS_FILE env = None
            ∧ delete (PKL_FILE env) (delete (FAISS_FILE env) f) !! PKL_FILE env = None)
    as Habs.
  { intros f. by rewrite lookup_delete_ne, !lookup_delete_eq. }
  destruct (Habs (fs w)) as [HF HP].
  split; [|split; [exact HF|split; [exact HP|split]]].
  - rewrite reset_vectorstore_cases. unfold removable. simpl.
    by rewrite HF, HP.
  - simpl. rewrite (delete_id _ (FAISS_FILE env)) by exact HF.
    by rewrite delete_id.
  - intros H1 H2. simpl. rewrite (delete_id _ (FAISS_FILE env)) by exact H1.
    by rewrite delete_id.
Qed.

End Artifacts.

(** The theorem at an installation with both artifacts on disk. *)
Lemma reset_vectorstore_idempotent_witness :
  let env := sample_env [] in
  let w := indexed_world plain_file plain_file in
  removable (fs w) (FAISS_FILE env) = true
  ∧ removable (fs w) (PKL_FILE env) = true
  ∧ ∃ w1 w2,
      reset_vectorstore env w = (Return true, w1)
      ∧ reset_vectorstore env w1 = (Return true, w2)
      ∧ fs w1 !! FAISS_FILE env = None ∧ fs w1 !! PKL_FILE env = None
      ∧ fs w2 = fs w1
      ∧ (fs w !! FAISS_FILE env = None → fs w !! PKL_FILE env = None →
         fs w1 = fs w).
Proof.
  intros env w.
  assert (removable (fs w) (FAISS_FILE env) = true) as RF by (vm_compute; reflexivity).
  assert (removable (fs w) (PKL_FILE env) = true) as RP by (vm_compute; reflexivity).
  split; [exact RF|]. split; [exact RP|].
  exact (reset_vectorstore_idempotent env w RF RP).
Defined.

(** C3, as written, fails for [reset_vectorstore]: with both artifacts on
    disk and a chunk/metadata file that may not be deleted, the vector-data
    file is removed and the chunk/metadata file is left in place. *)
Lemma reset_vectorstore_leaves_pkl :
  let env := sample_env [] in
  let w := indexed_world plain_file locked_file in
  let r := reset_vectorstore env w in
  fs w !! FAISS_FILE env = Some plain_file
  ∧ fs w !! PKL_FILE env = Some locked_file
  ∧ r.1 = Return false
  ∧ fs r.2 !! FAISS_FILE env = None
  ∧ fs r.2 !! PKL_FILE env = Some locked_file.
Proof. vm_compute. repeat split; reflexivity. Qed.

(** C6, as written, fails: when the vector-data file may not be deleted,
    neither of two consecutive calls succeeds. *)
Lemma reset_vectorstore_refused :
  let env := sample_env [] in
  let w := indexed_world locked_file plain_file in
  let r1 := reset_vectorstore env w in
  let r2 := reset_vectorstore env r1.2 in
  r1.1 = Return false ∧ r2.1 = Return false.
Proof. vm_compute. split; reflexivity. Qed.

(** ** Processing a request *)

Section Requests.

Context (env : Env).

Lemma main_request_body_run vs text w :
  main_request_body env vs text w =
    match environ w !! GOOGLE_API_KEY with
    | None | Some [] =>
        (Raise (Exception (Exn ValueError
           (lit "Google API key not found. Please provide a valid API key."))), w)
    | Some key =>
        let chain := {| chain_store := vs; chain_api_key := key |} in
        match ChatGoogleGenerativeAI env LLM_MODEL key with
        | Some e =>
            (Raise (Exception (Exn ValueError
               (lit "Error initializing LLM: " ++ exn_msg e
                  ++ lit ". Please check your API key."))),
             logged w [CallChatModel LLM_MODEL key])
        | None =>
            match retrieval_chain_invoke env chain text with
            | Err e =>
                (Raise (Exception e),
                 logged w [CallChatModel LLM_MODEL key; CallInvoke chain text])
            | Ok answer => (Return tt, answered w chain text answer)
            end
        end
    end.
Proof.
  unfold main_request_body, create_retrieval_chain_with_vectorstore,
    setup_llm_chain, os_getenv, new_chat_model, chain_invoke, history_append,
    display_response, answered, logged.
  fold GOOGLE_API_KEY. run.
  destruct (environ w !! GOOGLE_API_KEY) as [[|c key]|]; simpl; [done| |done].
  destruct (ChatGoogleGenerativeAI env LLM_MODEL (c :: key)); simpl; [done|].
  destruct (retrieval_chain_invoke env _ text) as [answer|e]; simpl.
  - unfold set_log, set_session; simpl. by rewrite <- !app_assoc.
  - unfold set_log; simpl. by rewrite <- !app_assoc.
Qed.

(** Processing never shortens or reorders the history, whatever happens. *)
Lemma main_process_request_history ui w :
  ∃ tail,
    history (session (main_process_request env ui w).2)
      = history (session w) ++ tail
    ∧ (length tail ≤ 1)%nat.
Proof.
  assert (∀ h : list (str * str), ∃ tail, h = h ++ tail ∧ (length tail ≤ 1)%nat)
    as Hsame by (intros h; exists []; rewrite app_nil_r; simpl; split; [done | lia]).
  unfold main_process_request. run.
  destruct (submit_button ui); [|apply Hsame].
  destruct (input_text ui) as [|c text] eqn:Et; [apply Hsame|].
  destruct (vectorstore (session w)) as [vs|] eqn:Ev; [|apply Hsame].
  pose proof (main_request_body_run vs (c :: text)
                (logged w [StSpinner (lit "Processing your request...")])) as Hrun.
  unfold logged in Hrun. rewrite Hrun. clear Hrun. simpl.
  destruct (environ w !! GOOGLE_API_KEY) as [[|k key]|]; simpl; try apply Hsame.
  destruct (ChatGoogleGenerativeAI env LLM_MODEL (k :: key)); simpl;
    [apply Hsame|].
  destruct (retrieval_chain_invoke env _ (c :: text)) as [answer|[[] msg]]; simpl;
    try apply Hsame.
  eexists [_]. split; [reflexivity | simpl; lia].
Qed.

(** C10. A submission that is processed (the button was pressed, the text
    is not empty, the session holds an index) and whose processing does not
    raise appends exactly one entry to the end of the history: the request
    text with the action type of the backend's answer, which is "Error"
    for an answer that contains "ERROR:" and no "Action Type:" label. *)
Theorem history_grows_by_one ui w vs :
  submit_button ui = true →
  input_text ui ≠ [] →
  vectorstore (session w) = Some vs →
  (main_request_body env vs (input_text ui) w).1 = Return tt →
  ∃ key answer,
    environ w !! GOOGLE_API_KEY = Some key
    ∧ retrieval_chain_invoke env {| chain_store := vs; chain_api_key := key |}
        (input_text ui) = Ok answer
    ∧ (main_process_request env ui w).1 = Return tt
    ∧ history (session (main_process_request env ui w).2)
        = history (session w) ++ [(input_text ui, main_action_type answer)]
    ∧ (occurs ERROR_LABEL answer → ¬ occurs ACTION_LABEL answer →
       main_action_type answer = lit "Error").
Proof.
  intros Hs Ht Hv Hbody.
  unfold main_process_request. run. rewrite Hs, Hv.
  destruct (input_text ui) as [|c text] eqn:Et; [done|]. clear Ht.
  rewrite main_request_body_run in *. simpl in *.
  destruct (environ w !! GOOGLE_API_KEY) as [[|k key]|]; simpl in *; try done.
  destruct (ChatGoogleGenerativeAI env LLM_MODEL (k :: key)); simpl in *; [done|].
  destruct (retrieval_chain_invoke env _ (c :: text)) as [answer|e] eqn:Ei;
    simpl in *; [|done].
  exists (k :: key), answer. repeat split; try done.
  intros He Hna. unfold main_action_type.
  by rewrite (contains_false ACTION_LABEL), (contains_true ERROR_LABEL).
Qed.

End Requests.

(** The theorem at a session with one history entry, for a request that
    the backend answers with the fixed error message. *)
Lemma history_grows_by_one_witness :
  let env := sample_env SENTINEL in
  let ui := sample_request in
  let w := serving_world in
  submit_button ui = true
  ∧ input_text ui ≠ []
  ∧ vectorstore (session w) = Some SIMPLE_STORE
  ∧ (main_request_body env SIMPLE_STORE (input_text ui) w).1 = Return tt
  ∧ ∃ key answer,
      environ w !! GOOGLE_API_KEY = Some key
      ∧ retrieval_chain_invoke env
          {| chain_store := SIMPLE_STORE; chain_api_key := key |}
          (input_text ui) = Ok answer
      ∧ (main_process_request env ui w).1 = Return tt
      ∧ history (session (main_process_request env ui w).2)
          = history (session w) ++ [(input_text ui, main_action_type answer)]
      ∧ (occurs ERROR_LABEL answer → ¬ occurs ACTION_LABEL answer →
         main_action_type answer = lit "Error").
Proof.
  intros env ui w.
  assert (submit_button ui = true) as Hs by reflexivity.
  assert (input_text ui ≠ []) as Ht by (vm_compute; discriminate).
  assert (vectorstore (session w) = Some SIMPLE_STORE) as Hv by reflexivity.
  assert ((main_request_body env SIMPLE_STORE (input_text ui) w).1 = Return tt)
    as Hb by (vm_compute; reflexivity).
  repeat (split; [assumption|]).
  exact (history_grows_by_one env ui w SIMPLE_STORE Hs Ht Hv Hb).
Defined.

(** ** Setting up the index *)

Section Setup.

Context (env : Env).

Lemma load_vectorstore_absent w :
  fs w !! FAISS_FILE env = None → load_vectorstore env w = (Return None, w).
Proof.
  intros H. unfold load_vectorstore, os_path_exists.
  fold (FAISS_FILE env). run. by rewrite H.
Qed.

Lemma main_simplified_vectorstore_run w :
  main_simplified_vectorstore env w = (Return tt, simplified env w).
Proof.
  unfold main_simplified_vectorstore, simplified, new_embeddings,
    faiss_from_documents, set_vectorstore, logged. run.
  destruct (HuggingFaceEmbeddings env SIMPLE_EMBEDDINGS); simpl.
  { unfold set_log; simpl. by rewrite <- !app_assoc. }
  destruct (FAISS_from_documents env SIMPLE_DOCS SIMPLE_EMBEDDINGS); simpl.
  { unfold set_log; simpl. by rewrite <- !app_assoc. }
  unfold set_log, set_session; simpl. by rewrite <- !app_assoc.
Qed.

(** C5, as amended. With no index in the session or on disk and a data
    directory without PDF files, the set-up reports that no documents were
    found, skips splitting, the build from the documents and the save, and
    leaves the disk as it was; it then attempts a one-document stand-in
    index, which it stores in the session when the embedding model and
    FAISS accept it; only otherwise does the session stay without index. *)
Theorem main_vectorstore_setup_no_documents w :
  vectorstore (session w) = None →
  fs w !! FAISS_FILE env = None →
  PyPDFDirectoryLoader_load env (DATA_DIR env) = Ok [] →
  let r := main_vectorstore_setup env w in
  r = (Return tt, simplified env (logged w (NO_DOCUMENTS_EVENTS env)))
  ∧ fs r.2 = fs w
  ∧ vectorstore (session r.2)
      = (if stand_in_available env then Some SIMPLE_STORE else None).
Proof.
  intros Hv Hf Hl. simpl.
  assert (main_vectorstore_setup env w
            = (Return tt, simplified env (logged w (NO_DOCUMENTS_EVENTS env)))) as ->.
  { unfold main_vectorstore_setup. run. rewrite Hv.
    rewrite load_vectorstore_absent by done. simpl.
    pose proof (load_documents_run env (DATA_DIR env)
                  (set_log (log w ++ [StInfo (lit "Attempting to load documents")]) w))
      as Hload.
    rewrite Hl in Hload. rewrite Hload. clear Hload. simpl.
    rewrite main_simplified_vectorstore_run.
    unfold logged, set_log, NO_DOCUMENTS_EVENTS; simpl.
    by rewrite <- !app_assoc. }
  split; [done|].
  unfold simplified, stand_in_available.
  destruct (HuggingFaceEmbeddings env SIMPLE_EMBEDDINGS); simpl; [done|].
  by destruct (FAISS_from_documents env SIMPLE_DOCS SIMPLE_EMBEDDINGS).
Qed.

End Setup.

(** The theorem at a first run over an empty data directory. *)
Lemma main_vectorstore_setup_no_documents_witness :
  let env := sample_env [] in
  let w := fresh_world in
  let r := main_vectorstore_setup env w in
  vectorstore (session w) = None
  ∧ fs w !! FAISS_FILE env = None
  ∧ PyPDFDirectoryLoader_load env (DATA_DIR env) = Ok []
  ∧ r = (Return tt, simplified env (logged w (NO_DOCUMENTS_EVENTS env)))
  ∧ fs r.2 = fs w
  ∧ vectorstore (session r.2)
      = (if stand_in_available env then Some SIMPLE_STORE else None).
Proof.
  intros env w.
  assert (vectorstore (session w) = None) as Hv by reflexivity.
  assert (fs w !! FAISS_FILE env = None) as Hf by (vm_compute; reflexivity).
  assert (PyPDFDirectoryLoader_load env (DATA_DIR env) = Ok []) as Hl by reflexivity.
  repeat (split; [assumption|]).
  exact (main_vectorstore_setup_no_documents env w Hv Hf Hl).
Defined.

(** C5, as written, fails: on a first run over a data directory without PDF
    files, where ingestion yields the empty list, the session ends up
    holding a vector store, the one-document stand-in. *)
Lemma main_vectorstore_setup_stores_stand_in :
  let env := sample_env [] in
  let w := fresh_world in
  let r := main_vectorstore_setup env w in
  vectorstore (session w) = None
  ∧ (load_documents env (DATA_DIR env) w).1 = Return []
  ∧ r.1 = Return tt
  ∧ vectorstore (session r.2) = Some SIMPLE_STORE.
Proof. vm_compute. repeat split; reflexivity. Qed.
(** ** Frames: what a piece of code leaves alone *)

Section Frame.

Context (R : World → World → Prop) `{!PreOrder R}.

Lemma keeps_ret {A} (a : A) : keeps R (ret a).
Proof. intros w. simpl. reflexivity. Qed.

Lemma keeps_raise {A} e : keeps R (@raise A e).
Proof. intros w. simpl. reflexivity. Qed.

Lemma keeps_rerun {A} : keeps R (@st_rerun A).
Proof. intros w. simpl. reflexivity. Qed.

Lemma keeps_bind {A B} (m : M A) (k : A → M B) :
  keeps R m → (∀ a, keeps R (k a)) → keeps R (bind m k).
Proof.
  intros Hm Hk w. unfold bind. specialize (Hm w).
  destruct (m w) as [[a|s] w1]; simpl in *; [|done].
  etrans; [exact Hm | apply Hk].
Qed.

Lemma keeps_try_except {A} (m : M A) (h : exn → M A) :
  keeps R m → (∀ e, keeps R (h e)) → keeps R (try_except m h).
Proof.
  intros Hm Hh w. unfold try_except. specialize (Hm w).
  destruct (m w) as [[a|[e|]] w1]; simpl in *; [done| |done].
  etrans; [exact Hm | apply Hh].
Qed.

Lemma keeps_of_result {A} (r : result A) : keeps R (of_result r).
Proof. intros w. simpl. reflexivity. Qed.

Lemma keeps_of_status o : keeps R (of_status o).
Proof. intros w. simpl. reflexivity. Qed.

Lemma keeps_get_session : keeps R get_session.
Proof. intros w. simpl. reflexivity. Qed.

Lemma keeps_os_getenv k : keeps R (os_getenv k).
Proof. intros w. simpl. reflexivity. Qed.

Lemma keeps_os_path_exists p : keeps R (os_path_exists p).
Proof. intros w. simpl. reflexivity. Qed.

Lemma keeps_emit e : log_blind R → keeps R (emit e).
Proof. intros HR w. apply HR. Qed.

Lemma keeps_put_session s : session_blind R → keeps R (put_session s).
Proof. intros HR w. apply HR. Qed.

Lemma keeps_os_remove p : fs_blind R → keeps R (os_remove p).
Proof.
  intros HR w. unfold os_remove.
  destruct (fs w !! p) as [f|]; [|reflexivity].
  destruct (locked f); [reflexivity | apply HR].
Qed.

End Frame.

Global Instance same_preorder {X} (f : World → X) : PreOrder (same f).
Proof. split; [by intros w | intros w1 w2 w3 H1 H2; unfold same in *; congruence]. Qed.

Global Instance log_extends_preorder : PreOrder log_extends.
Proof.
  split.
  - intros w. exists []. by rewrite app_nil_r.
  - intros w1 w2 w3 [e1 H1] [e2 H2]. exists (e1 ++ e2).
    by rewrite H2, H1, app_assoc.
Qed.


Lemma same_log_blind {X} (f : World → X) :
  (∀ l w, f (set_log l w) = f w) → log_blind (same f).
Proof. intros H es w. apply H. Qed.

Lemma log_extends_log_blind : log_blind log_extends.
Proof. intros es w. by exists es. Qed.

Lemma log_extends_session_blind : session_blind log_extends.
Proof. intros s w. exists []. simpl. by rewrite app_nil_r. Qed.

Lemma log_extends_fs_blind : fs_blind log_extends.
Proof. intros f w. exists []. simpl. by rewrite app_nil_r. Qed.

Ltac blind :=
  first [ exact log_extends_log_blind | exact log_extends_session_blind
        | exact log_extends_fs_blind
        | by intros ? ? ].

Ltac unfold_calls :=
  unfold st_error, st_warning, st_info, st_success, st_markdown, st_spinner,
    st_button, pdf_loader_load, splitter_split_documents, new_embeddings,
    faiss_from_documents, new_chat_model, chain_invoke.

Section LibraryFrames.

Context (env : Env) (R : World → World → Prop) `{!PreOrder R}.

Lemma keeps_faiss_save_local vs path :
  log_blind R → fs_blind R → keeps R (faiss_save_local env vs path).
Proof.
  intros HL HF. unfold faiss_save_local. apply keeps_bind; [done|by apply keeps_emit|].
  intros _ w. destruct (FAISS_save_local env vs path (fs w)). apply HF.
Qed.

Lemma keeps_faiss_load_local path cfg :
  log_blind R → keeps R (faiss_load_local env path cfg).
Proof.
  intros HL. unfold faiss_load_local. apply keeps_bind; [done|by apply keeps_emit|].
  intros _ w. simpl. reflexivity.
Qed.

End LibraryFrames.

Section SessionFrames.

Context (R : World → World → Prop) `{!PreOrder R}.

Lemma keeps_set_vectorstore v : session_blind R → keeps R (set_vectorstore v).
Proof. intros HR w. apply HR. Qed.

Lemma keeps_set_api_key_valid b : session_blind R → keeps R (set_api_key_valid b).
Proof. intros HR w. apply HR. Qed.

Lemma keeps_history_append e : session_blind R → keeps R (history_append e).
Proof. intros HR w. apply HR. Qed.

End SessionFrames.

Lemma set_vectorstore_keeps_history v : keeps (same session_history) (set_vectorstore v).
Proof. by intros w. Qed.
Lemma set_vectorstore_keeps_key_valid v : keeps (same session_key_valid) (set_vectorstore v).
Proof. by intros w. Qed.
Lemma set_api_key_valid_keeps_history b : keeps (same session_history) (set_api_key_valid b).
Proof. by intros w. Qed.
Lemma set_api_key_valid_keeps_store b : keeps (same session_store) (set_api_key_valid b).
Proof. by intros w. Qed.
Lemma history_append_keeps_store e : keeps (same session_store) (history_append e).
Proof. by intros w. Qed.
Lemma history_append_keeps_key_valid e : keeps (same session_key_valid) (history_append e).
Proof. by intros w. Qed.

Ltac frame_step :=
  first
    [ assumption
    | apply set_vectorstore_keeps_history | apply set_vectorstore_keeps_key_valid
    | apply set_api_key_valid_keeps_history | apply set_api_key_valid_keeps_store
    | apply history_append_keeps_store | apply history_append_keeps_key_valid
    | solve [auto]
    | apply keeps_set_vectorstore | apply keeps_set_api_key_valid
    | apply keeps_history_append
    | apply keeps_faiss_save_local | apply keeps_faiss_load_local
    | apply keeps_bind | apply keeps_try_except | apply keeps_ret
    | apply keeps_raise | apply keeps_rerun | apply keeps_of_result
    | apply keeps_of_status | apply keeps_get_session | apply keeps_os_getenv
    | apply keeps_os_path_exists
    | apply keeps_emit | apply keeps_put_session | apply keeps_os_remove
    | apply _
    | blind
    | match goal with
      | |- keeps _ (match ?x with _ => _ end) => destruct x
      end ].

Ltac frame := unfold_calls; repeat (intros; frame_step).

Section LoaderFrames.

Context (env : Env).

Lemma load_documents_keeps dir R `{!PreOrder R} :
  log_blind R → keeps R (load_documents env dir).
Proof. intros HL. unfold load_documents. frame. Qed.

Lemma save_vectorstore_keeps vs R `{!PreOrder R} :
  log_blind R → fs_blind R → keeps R (save_vectorstore env vs).
Proof. intros HL HF. unfold save_vectorstore. frame. Qed.

Lemma create_vectorstore_keeps docs save R `{!PreOrder R} :
  log_blind R → fs_blind R → keeps R (create_vectorstore env docs save).
Proof.
  intros HL HF. unfold create_vectorstore. frame; by apply save_vectorstore_keeps.
Qed.

Lemma load_vectorstore_keeps R `{!PreOrder R} :
  log_blind R → keeps R (load_vectorstore env).
Proof. intros HL. unfold load_vectorstore. frame. Qed.

Lemma reset_vectorstore_keeps R `{!PreOrder R} :
  log_blind R → fs_blind R → keeps R (reset_vectorstore env).
Proof. intros HL HF. unfold reset_vectorstore. frame. Qed.

End LoaderFrames.

(** ** Totality: what never raises *)

Section Totality.

Lemma total_no_rerun {A} (m : M A) : total m → no_rerun m.
Proof. intros H w Hr. destruct (H w) as [a Ha]. congruence. Qed.

Lemma total_ret {A} (a : A) : total (ret a).
Proof. intros w. by exists a. Qed.

Lemma total_bind {A B} (m : M A) (k : A → M B) :
  total m → (∀ a, total (k a)) → total (bind m k).
Proof.
  intros Hm Hk w. unfold bind. destruct (Hm w) as [a Ha].
  destruct (m w) as [o w1]; simpl in *; subst o. apply Hk.
Qed.

Lemma total_try_except {A} (m : M A) (h : exn → M A) :
  no_rerun m → (∀ e, total (h e)) → total (try_except m h).
Proof.
  intros Hm Hh w. unfold try_except. specialize (Hm w).
  destruct (m w) as [[a|[e|]] w1]; simpl in *;
    [by exists a|apply Hh|by destruct Hm].
Qed.

Lemma total_emit e : total (emit e).
Proof. intros w. by exists tt. Qed.

Lemma total_get_session : total get_session.
Proof. intros w. by eexists. Qed.

Lemma total_put_session s : total (put_session s).
Proof. intros w. by exists tt. Qed.

Lemma total_os_getenv k : total (os_getenv k).
Proof. intros w. by eexists. Qed.

Lemma total_os_path_exists p : total (os_path_exists p).
Proof. intros w. by eexists. Qed.

Lemma no_rerun_raise {A} e : no_rerun (@raise A e).
Proof. by intros w. Qed.

Lemma no_rerun_bind {A B} (m : M A) (k : A → M B) :
  no_rerun m → (∀ a, no_rerun (k a)) → no_rerun (bind m k).
Proof.
  intros Hm Hk w. unfold bind. specialize (Hm w).
  destruct (m w) as [[a|s] w1]; simpl in *; [apply Hk|].
  intros [= ->]. by apply Hm.
Qed.

Lemma no_rerun_try_except {A} (m : M A) (h : exn → M A) :
  no_rerun m → (∀ e, no_rerun (h e)) → no_rerun (try_except m h).
Proof.
  intros Hm Hh w. unfold try_except. specialize (Hm w).
  destruct (m w) as [[a|[e|]] w1]; simpl in *; [done|apply Hh|by destruct Hm].
Qed.

Lemma no_rerun_of_result {A} (r : result A) : no_rerun (of_result r).
Proof. intros w. by destruct r. Qed.

Lemma no_rerun_of_status o : no_rerun (of_status o).
Proof. intros w. by destruct o. Qed.

Lemma no_rerun_os_remove p : no_rerun (os_remove p).
Proof.
  intros w. unfold os_remove. destruct (fs w !! p) as [f|]; [|done].
  by destruct (locked f).
Qed.

Lemma no_rerun_faiss_save_local env vs path :
  no_rerun (faiss_save_local env vs path).
Proof.
  intros w. unfold faiss_save_local, bind, emit. simpl.
  by destruct (FAISS_save_local env vs path (fs w)) as [[e|] f].
Qed.

Lemma no_rerun_faiss_load_local env path cfg :
  no_rerun (faiss_load_local env path cfg).
Proof.
  intros w. unfold faiss_load_local, bind, emit. simpl.
  by destruct (FAISS_load_local env path cfg (fs w)).
Qed.

End Totality.

Lemma total_set_vectorstore v : total (set_vectorstore v).
Proof. intros w. by exists tt. Qed.
Lemma total_set_api_key_valid b : total (set_api_key_valid b).
Proof. intros w. by exists tt. Qed.
Lemma total_history_append e : total (history_append e).
Proof. intros w. by exists tt. Qed.

Ltac total_atom :=
  first
    [ assumption
    | apply total_set_vectorstore | apply total_set_api_key_valid
    | apply total_history_append
    | apply total_ret | apply total_emit | apply total_get_session
    | apply total_put_session | apply total_os_getenv
    | apply total_os_path_exists ].

Ltac total_step :=
  first
    [ total_atom
    | apply no_rerun_faiss_save_local | apply no_rerun_faiss_load_local
    | apply total_bind | apply total_try_except
    | apply no_rerun_raise | apply no_rerun_of_result | apply no_rerun_of_status
    | apply no_rerun_os_remove
    | apply no_rerun_bind | apply no_rerun_try_except
    | match goal with
      | |- total (match ?x with _ => _ end) => destruct x
      | |- no_rerun (match ?x with _ => _ end) => destruct x
      end
    | apply total_no_rerun; total_atom ].

Ltac totality := unfold_calls; repeat (intros; total_step).

Section LoaderTotality.

Context (env : Env).

Lemma load_documents_never_raises dir : total (load_documents env dir).
Proof. unfold load_documents. totality. Qed.

Lemma process_documents_no_rerun docs : no_rerun (process_documents env docs).
Proof. unfold process_documents. totality. Qed.

Lemma save_vectorstore_never_raises vs : total (save_vectorstore env vs).
Proof. unfold save_vectorstore. totality. Qed.

Lemma create_vectorstore_never_raises docs save :
  total (create_vectorstore env docs save).
Proof.
  pose proof save_vectorstore_never_raises.
  unfold create_vectorstore. totality.
Qed.

Lemma load_vectorstore_never_raises : total (load_vectorstore env).
Proof. unfold load_vectorstore. totality. Qed.

Lemma reset_vectorstore_never_raises : total (reset_vectorstore env).
Proof. unfold reset_vectorstore. totality. Qed.

Lemma validate_api_key_never_raises key : total (validate_api_key env key).
Proof. unfold validate_api_key. totality. Qed.

Lemma main_simplified_vectorstore_never_raises :
  total (main_simplified_vectorstore env).
Proof. unfold main_simplified_vectorstore. totality. Qed.

Lemma main_vectorstore_setup_never_raises : total (main_vectorstore_setup env).
Proof.
  pose proof load_vectorstore_never_raises.
  pose proof load_documents_never_raises.
  pose proof process_documents_no_rerun.
  pose proof create_vectorstore_never_raises.
  pose proof main_simplified_vectorstore_never_raises.
  unfold main_vectorstore_setup. totality.
Qed.

Lemma main_process_request_never_raises ui : total (main_process_request env ui).
Proof.
  unfold main_process_request, main_request_body,
    create_retrieval_chain_with_vectorstore, setup_llm_chain, display_response.
  totality.
Qed.

End LoaderTotality.

(** ** The persisted index: loading, building, resetting *)

Section Index.

Context (env : Env).

(** X1. [load_vectorstore] never raises and changes nothing but the log.
    Without the vector-data file it answers [None]; with it, it answers
    the store of the first attempt that works, the primary configuration
    before the fallback, and [None] when both fail. *)
Theorem load_vectorstore_result w :
  let r := load_vectorstore env w in
  r.1 = Return
          (if bool_decide (is_Some (fs w !! FAISS_FILE env)) then
             match load_attempt env PRIMARY_EMBEDDINGS (fs w) with
             | Some v => Some v
             | None => load_attempt env FALLBACK_EMBEDDINGS (fs w)
             end
           else None)
  ∧ fs r.2 = fs w ∧ environ r.2 = environ w ∧ session r.2 = session w.
Proof.
  simpl. split.
  - unfold load_vectorstore, load_attempt, os_path_exists, new_embeddings,
      faiss_load_local. fold (FAISS_FILE env). run.
    destruct (bool_decide (is_Some (fs w !! FAISS_FILE env))) eqn:E; simpl;
      [|done].
    destruct (HuggingFaceEmbeddings env PRIMARY_EMBEDDINGS); simpl.
    2: destruct (FAISS_load_local env _ PRIMARY_EMBEDDINGS (fs w)); simpl;
      [done|].
    all: rewrite E; simpl.
    all: destruct (HuggingFaceEmbeddings env FALLBACK_EMBEDDINGS); simpl; [done|];
      by destruct (FAISS_load_local env _ FALLBACK_EMBEDDINGS (fs w)).
  - split; [|split].
    + by apply (load_vectorstore_keeps env (same fs)).
    + by apply (load_vectorstore_keeps env (same environ)).
    + by apply (load_vectorstore_keeps env (same session)).
Qed.

(** X2. [create_vectorstore] never changes the session or the
    environment, and with [save_local=False] it leaves the disk alone. *)
Theorem create_vectorstore_frame documents save_local w :
  session (create_vectorstore env documents save_local w).2 = session w
  ∧ environ (create_vectorstore env documents save_local w).2 = environ w
  ∧ fs (create_vectorstore env documents false w).2 = fs w.
Proof.
  split; [|split].
  - by apply (create_vectorstore_keeps env _ _ (same session)).
  - by apply (create_vectorstore_keeps env _ _ (same environ)).
  - revert w. change (keeps (same fs) (create_vectorstore env documents false)).
    unfold create_vectorstore. frame.
Qed.

(** X4. [reset_vectorstore] touches nothing but the two artifacts: every
    other path keeps its file, no file appears, and the session and the
    environment are as before. *)
Theorem reset_vectorstore_frame w :
  let r := reset_vectorstore env w in
  (∀ p, p ≠ FAISS_FILE env → p ≠ PKL_FILE env → fs r.2 !! p = fs w !! p)
  ∧ fs r.2 ⊆ fs w
  ∧ session r.2 = session w
  ∧ environ r.2 = environ w.
Proof.
  simpl. rewrite reset_vectorstore_cases.
  destruct (removable (fs w) (FAISS_FILE env));
    [destruct (removable (fs w) (PKL_FILE env))|]; simpl.
  - repeat split; [|etrans; apply delete_subseteq].
    intros p H1 H2. by rewrite !lookup_delete_ne.
  - repeat split; [|apply delete_subseteq].
    intros p H1 H2. by rewrite !lookup_delete_ne.
  - done.
Qed.

End Index.

(** ** The API key and the chain *)

Section Chain.

Context (env : Env).

(** X5. [validate_api_key] never raises and changes nothing but the log;
    its verdict is [True] exactly for a non-empty key with which the chat
    model can be constructed, and a [False] verdict always comes with a
    message. *)
Theorem validate_api_key_verdict api_key w :
  ∃ is_valid error_message,
    validate_api_key env api_key w
      = (Return (is_valid, error_message),
         match api_key with
         | [] => w
         | _ :: _ => logged w [CallChatModel LLM_MODEL api_key]
         end)
    ∧ (is_valid = true ↔
         api_key ≠ [] ∧ ChatGoogleGenerativeAI env LLM_MODEL api_key = None)
    ∧ (is_valid = false → is_Some error_message).
Proof.
  destruct api_key as [|c key].
  - eexists _, _. split; [reflexivity|]. split; [|eauto].
    split; [done | by intros [? _]].
  - rewrite validate_api_key_nonempty.
    destruct (ChatGoogleGenerativeAI env LLM_MODEL (c :: key)) as [e|];
      eexists _, _; (split; [reflexivity|]); split; eauto; try done.
    split; [done | by intros [_ ?]].
Qed.



End Chain.

(** ** Processing a request: what it leaves alone and how it fails *)

Section RequestFrames.

Context (env : Env).

Lemma main_process_request_keeps ui R `{!PreOrder R} :
  log_blind R →
  (∀ b, keeps R (set_api_key_valid b)) →
  (∀ e, keeps R (history_append e)) →
  keeps R (main_process_request env ui).
Proof.
  intros HL HK HH.
  unfold main_process_request, main_request_body,
    create_retrieval_chain_with_vectorstore, setup_llm_chain, display_response.
  frame.
Qed.

(** X7. Processing a request never raises, whatever the libraries do, and
    leaves the disk, the environment and the session's index as they were;
    the log only grows. *)
Theorem main_process_request_frame ui w :
  let r := main_process_request env ui w in
  r.1 = Return tt
  ∧ fs r.2 = fs w
  ∧ environ r.2 = environ w
  ∧ vectorstore (session r.2) = vectorstore (session w)
  ∧ ∃ es, log r.2 = log w ++ es.
Proof.
  simpl. split; [|split; [|split; [|split]]].
  - destruct (main_process_request_never_raises env ui w) as [[] H]. exact H.
  - apply (main_process_request_keeps ui (same fs)); by intros ? ?.
  - apply (main_process_request_keeps ui (same environ)); by intros ? ?.
  - apply (main_process_request_keeps ui (same session_store)); by intros ? ?.
  - apply (main_process_request_keeps ui log_extends);
      [exact log_extends_log_blind | intros b w0 | intros e w0];
      exists []; simpl; by rewrite app_nil_r.
Qed.

(** X9. A run in which the button was not pressed, or the text is empty,
    or the session holds no index, processes nothing: the world is left
    exactly as it was. *)
Theorem main_process_request_idle ui w :
  submit_button ui = false ∨ input_text ui = []
    ∨ vectorstore (session w) = None →
  main_process_request env ui w = (Return tt, w).
Proof.
  unfold main_process_request. run.
  intros [-> | [-> | ->]]; [done| |].
  - by destruct (submit_button ui).
  - destruct (submit_button ui); [|done]. by destruct (input_text ui).
Qed.

(** X8. How a processed request fails. When the [try] body raises a
    [ValueError] (no key in the environment, a chat model that cannot be
    constructed, or a [ValueError] of the backend call itself) the page
    shows "API Key Error", the session's key is marked invalid and a button
    to re-enter it is shown; any other exception is shown as "An error
    occurred" and the session stays as it was. Either way the history is
    untouched. *)
Theorem main_process_request_failure ui w vs e :
  submit_button ui = true →
  input_text ui ≠ [] →
  vectorstore (session w) = Some vs →
  (main_request_body env vs (input_text ui) w).1 = Raise (Exception e) →
  let r := main_process_request env ui w in
  history (session r.2) = history (session w)
  ∧ match exn_cls e with
    | ValueError =>
        api_key_valid (session r.2) = false
        ∧ ∃ es, log r.2 = log w ++ es
                 ++ [StError (lit "API Key Error: " ++ exn_msg e);
                     StButton (lit "Re-enter API Key")]
    | _ =>
        session r.2 = session w
        ∧ ∃ es, log r.2 = log w ++ es
                 ++ [StError (lit "An error occurred: " ++ exn_msg e)]
    end.
Proof.
  intros Hs Ht Hv Hbody. simpl.
  unfold main_process_request. run. rewrite Hs, Hv.
  destruct (input_text ui) as [|c text] eqn:Et; [done|]. clear Ht.
  rewrite main_request_body_run in *. simpl in *.
  destruct (environ w !! GOOGLE_API_KEY) as [[|k key]|]; simpl in *.
  1,3: injection Hbody as <-; simpl; split; [done|]; split; [done|];
       eexists [_]; by rewrite <- !app_assoc.
  destruct (ChatGoogleGenerativeAI env LLM_MODEL (k :: key)); simpl in *.
  { injection Hbody as <-; simpl; split; [done|]; split; [done|].
    eexists [_; _]. by rewrite <- !app_assoc. }
  destruct (retrieval_chain_invoke env _ (c :: text)) as [answer|e'] eqn:Ei;
    simpl in *; [done|].
  injection Hbody as ->.
  destruct e as [[] msg]; simpl; (split; [done|]); (split; [done|]);
    eexists [_; _; _]; by rewrite <- !app_assoc.
Qed.

End RequestFrames.

(** ** Setting up the index: every path *)

Lemma try_bind_cases {A B} (m : M A) (k : A → M B) (h : exn → M B) w :
  try_except (bind m k) h w =
    match m w with
    | (Return a, w1) => try_except (k a) h w1
    | (Raise (Exception e), w1) => h e w1
    | (Raise RerunException, w1) => (Raise RerunException, w1)
    end.
Proof. unfold try_except, bind. by destruct (m w) as [[a|[e|]] w1]. Qed.

Lemma try_except_total {A} (m : M A) (h : exn → M A) w :
  total m → try_except m h w = m w.
Proof.
  intros H. destruct (H w) as [a Ha]. unfold try_except.
  destruct (m w) as [o w1]; simpl in *. by subst o.
Qed.

Section SetupPaths.

Context (env : Env).

(** X10. A session that already holds an index is left exactly as it is:
    nothing is read from disk, no library is called, nothing is shown. *)
Theorem main_vectorstore_setup_cached w v :
  vectorstore (session w) = Some v →
  main_vectorstore_setup env w = (Return tt, w).
Proof. intros H. unfold main_vectorstore_setup. run. by rewrite H. Qed.

Lemma main_vectorstore_setup_keeps R `{!PreOrder R} :
  log_blind R → fs_blind R →
  (∀ v, keeps R (set_vectorstore v)) →
  keeps R (main_vectorstore_setup env).
Proof.
  intros HL HF HV.
  unfold main_vectorstore_setup, main_simplified_vectorstore, process_documents.
  frame;
    first [ by apply load_vectorstore_keeps | by apply load_documents_keeps
          | by apply create_vectorstore_keeps ].
Qed.

(** X11. The set-up never raises, whatever the libraries do, and changes
    neither the environment nor the history nor the validity of the key;
    the log only grows. *)
Theorem main_vectorstore_setup_frame w :
  let r := main_vectorstore_setup env w in
  r.1 = Return tt
  ∧ environ r.2 = environ w
  ∧ history (session r.2) = history (session w)
  ∧ api_key_valid (session r.2) = api_key_valid (session w)
  ∧ ∃ es, log r.2 = log w ++ es.
Proof.
  simpl. split; [|split; [|split; [|split]]].
  - destruct (main_vectorstore_setup_never_raises env w) as [[] H]. exact H.
  - apply (main_vectorstore_setup_keeps (same environ)); by intros ? ?.
  - apply (main_vectorstore_setup_keeps (same session_history)); by intros ? ?.
  - apply (main_vectorstore_setup_keeps (same session_key_valid)); by intros ? ?.
  - apply (main_vectorstore_setup_keeps log_extends);
      [exact log_extends_log_blind | exact log_extends_fs_blind | intros v w0].
    exists []; simpl; by rewrite app_nil_r.
Qed.

Lemma simplified_ready_or_reported w : ready_or_reported (simplified env w).
Proof.
  unfold ready_or_reported, simplified, logged.
  destruct (HuggingFaceEmbeddings env SIMPLE_EMBEDDINGS); simpl.
  { right. by rewrite last_app. }
  destruct (FAISS_from_documents env SIMPLE_DOCS SIMPLE_EMBEDDINGS); simpl.
  { right. by rewrite last_app. }
  left. eauto.
Qed.

(** X12. After the set-up the session holds an index, or the last thing
    on the page is the error that the application cannot function without
    one. An index that was in the session stays there. *)
Theorem main_vectorstore_setup_ready_or_reported w :
  let r := main_vectorstore_setup env w in
  ready_or_reported r.2
  ∧ (is_Some (vectorstore (session w)) →
     vectorstore (session r.2) = vectorstore (session w)).
Proof.
  simpl. split.
  2: { intros [v Hv]. unfold main_vectorstore_setup. run. by rewrite Hv. }
  unfold main_vectorstore_setup. unfold bind at 1. simpl.
  destruct (vectorstore (session w)) as [v|] eqn:Hv; simpl.
  { left. rewrite Hv. eauto. }
  rewrite try_bind_cases.
  destruct (load_vectorstore_never_raises env w) as [loaded Hl].
  destruct (load_vectorstore env w) as [o w1]; simpl in Hl; subst o.
  rewrite try_bind_cases.
  assert (∀ (W : World) (vs : option VectorStore),
            ready_or_reported
              (try_except
                 (match vs with
                  | Some v => set_vectorstore (Some v)
                  | None =>
                      st_warning (lit "Could not create a proper vector database. Using a simplified version for testing.") ;;
                      main_simplified_vectorstore env
                  end)
                 (fun e =>
                    st_error (lit "Error setting up the document database: " ++ exn_msg e) ;;
                    st_info (lit "Attempting to use a simplified version for testing.") ;;
                    main_simplified_vectorstore env) W).2) as Hend.
  { intros W [v|].
    - rewrite try_except_total by apply total_set_vectorstore. left. simpl. eauto.
    - rewrite try_except_total.
      2: { apply total_bind; [apply total_emit|intros _].
           apply main_simplified_vectorstore_never_raises. }
      unfold bind, st_warning, emit. simpl.
      rewrite main_simplified_vectorstore_run. simpl.
      apply simplified_ready_or_reported. }
  destruct loaded as [v|]; [apply Hend|].
  match goal with
  | |- context [match ?m w1 with _ => _ end] =>
      assert (no_rerun m) as Hnr;
        [|specialize (Hnr w1); destruct (m w1) as [[vs|[e|]] w2]]
  end.
  { pose proof (create_vectorstore_never_raises env).
    unfold process_documents. totality. }
  - apply Hend.
  - unfold bind, st_error, st_info, emit. simpl.
    rewrite main_simplified_vectorstore_run. simpl.
    apply simplified_ready_or_reported.
  - done.
Qed.

(** X13. The ingestion path. With no index in the session or on disk, a
    data directory that yields documents, a splitter that returns chunks
    and a primary configuration that is accepted, the set-up loads, splits
    with chunk size 500 and overlap 100, builds the index from the chunks,
    saves it once and stores it in the session. *)
Theorem main_vectorstore_setup_builds w d docs chunks :
  vectorstore (session w) = None →
  fs w !! FAISS_FILE env = None →
  PyPDFDirectoryLoader_load env (DATA_DIR env) = Ok (d :: docs) →
  RecursiveCharacterTextSplitter_split_documents env 500 100 (d :: docs)
    = Ok chunks →
  build_accepted env chunks PRIMARY_EMBEDDINGS = true →
  main_vectorstore_setup env w =
    (Return tt,
     built env chunks
       (logged w [StInfo (lit "Attempting to load documents");
                  CallPdfLoader (DATA_DIR env);
                  CallSplitter 500 100 (d :: docs)])).
Proof.
  intros Hv Hf Hl Hs Hb.
  unfold main_vectorstore_setup. run. rewrite Hv.
  rewrite load_vectorstore_absent by done. simpl.
  pose proof (load_documents_run env (DATA_DIR env)
                (set_log (log w ++ [StInfo (lit "Attempting to load documents")]) w))
    as Hload.
  rewrite Hl in Hload. rewrite Hload. clear Hload. simpl.
  rewrite process_documents_run, Hs. simpl.
  assert (HuggingFaceEmbeddings env PRIMARY_EMBEDDINGS = None
          ∧ FAISS_from_documents env chunks PRIMARY_EMBEDDINGS = None)
    as [Hemb Hfd].
  { unfold build_accepted in Hb.
    destruct (HuggingFaceEmbeddings env PRIMARY_EMBEDDINGS); [done|].
    by destruct (FAISS_from_documents env chunks PRIMARY_EMBEDDINGS). }
  unfold create_vectorstore, new_embeddings, faiss_from_documents,
    save_vectorstore, faiss_save_local. run.
  rewrite Hemb. simpl. rewrite Hfd. simpl.
  unfold built, logged. simpl.
  destruct (FAISS_save_local env
              {| vs_documents := chunks; vs_embedding := PRIMARY_EMBEDDINGS |}
              (FAISS_INDEX_PATH env) (fs w)) as [[e|] f];
    simpl; unfold set_log, set_fs, set_session; simpl;
    by rewrite <- !app_assoc.
Qed.


(** X15. A splitter that fails does not stop the set-up: the failure is
    reported as an error of the document database, nothing is built from
    the documents or saved, and the stand-in index is attempted. *)
Theorem main_vectorstore_setup_splitter_failure w d docs e :
  vectorstore (session w) = None →
  fs w !! FAISS_FILE env = None →
  PyPDFDirectoryLoader_load env (DATA_DIR env) = Ok (d :: docs) →
  RecursiveCharacterTextSplitter_split_documents env 500 100 (d :: docs)
    = Err e →
  main_vectorstore_setup env w =
    (Return tt,
     simplified env
       (logged w [StInfo (lit "Attempting to load documents");
                  CallPdfLoader (DATA_DIR env);
                  CallSplitter 500 100 (d :: docs);
                  StError (lit "Error setting up the document database: "
                             ++ exn_msg e);
                  StInfo (lit "Attempting to use a simplified version for testing.")])).
Proof.
  intros Hv Hf Hl Hs.
  unfold main_vectorstore_setup. run. rewrite Hv.
  rewrite load_vectorstore_absent by done. simpl.
  pose proof (load_documents_run env (DATA_DIR env)
                (set_log (log w ++ [StInfo (lit "Attempting to load documents")]) w))
    as Hload.
  rewrite Hl in Hload. rewrite Hload. clear Hload. simpl.
  rewrite process_documents_run, Hs. simpl.
  rewrite main_simplified_vectorstore_run.
  unfold logged, set_log. simpl. by rewrite <- !app_assoc.
Qed.

End SetupPaths.

Transparent lit.

(** X10 at a session that is serving requests. *)
Lemma main_vectorstore_setup_cached_witness :
  vectorstore (session serving_world) = Some SIMPLE_STORE
  ∧ main_vectorstore_setup faulty_env serving_world = (Return tt, serving_world).
Proof.
  assert (vectorstore (session serving_world) = Some SIMPLE_STORE) as H
    by reflexivity.
  split; [exact H|].
  exact (main_vectorstore_setup_cached faulty_env serving_world SIMPLE_STORE H).
Defined.

(** X13 at a first run over a data directory with one page. *)
Lemma main_vectorstore_setup_builds_witness :
  let env := stocked_env in
  let w := fresh_world in
  vectorstore (session w) = None
  ∧ fs w !! FAISS_FILE env = None
  ∧ PyPDFDirectoryLoader_load env (DATA_DIR env) = Ok [manual_page]
  ∧ RecursiveCharacterTextSplitter_split_documents env 500 100 [manual_page]
      = Ok [manual_page]
  ∧ build_accepted env [manual_page] PRIMARY_EMBEDDINGS = true
  ∧ main_vectorstore_setup env w =
      (Return tt,
       built env [manual_page]
         (logged w [StInfo (lit "Attempting to load documents");
                    CallPdfLoader (DATA_DIR env);
                    CallSplitter 500 100 [manual_page]])).
Proof.
  intros env w.
  assert (vectorstore (session w) = None) as H1 by reflexivity.
  assert (fs w !! FAISS_FILE env = None) as H2 by (vm_compute; reflexivity).
  assert (PyPDFDirectoryLoader_load env (DATA_DIR env) = Ok [manual_page])
    as H3 by reflexivity.
  assert (RecursiveCharacterTextSplitter_split_documents env 500 100 [manual_page]
            = Ok [manual_page]) as H4 by reflexivity.
  assert (build_accepted env [manual_page] PRIMARY_EMBEDDINGS = true)
    as H5 by reflexivity.
  repeat (split; [assumption|]).
  exact (main_vectorstore_setup_builds env w manual_page [] [manual_page]
           H1 H2 H3 H4 H5).
Defined.


(** X15 at a first run with a splitter that fails. *)
Lemma main_vectorstore_setup_splitter_failure_witness :
  let env := faulty_env in
  let w := fresh_world in
  let e := Exn LibraryError (lit "cannot split") in
  vectorstore (session w) = None
  ∧ fs w !! FAISS_FILE env = None
  ∧ PyPDFDirectoryLoader_load env (DATA_DIR env) = Ok [manual_page]
  ∧ RecursiveCharacterTextSplitter_split_documents env 500 100 [manual_page]
      = Err e
  ∧ main_vectorstore_setup env w =
      (Return tt,
       simplified env
         (logged w [StInfo (lit "Attempting to load documents");
                    CallPdfLoader (DATA_DIR env);
                    CallSplitter 500 100 [manual_page];
                    StError (lit "Error setting up the document database: "
                               ++ exn_msg e);
                    StInfo (lit "Attempting to use a simplified version for testing.")])).
Proof.
  intros env w e.
  assert (vectorstore (session w) = None) as H1 by reflexivity.
  assert (fs w !! FAISS_FILE env = None) as H2 by (vm_compute; reflexivity).
  assert (PyPDFDirectoryLoader_load env (DATA_DIR env) = Ok [manual_page])
    as H3 by reflexivity.
  assert (RecursiveCharacterTextSplitter_split_documents env 500 100 [manual_page]
            = Err e) as H4 by reflexivity.
  repeat (split; [assumption|]).
  exact (main_vectorstore_setup_splitter_failure env w manual_page [] e
           H1 H2 H3 H4).
Defined.

Opaque lit.

(** ** The history on the page *)

Lemma display_history_rows_run rows i w :
  display_history_rows i rows w
    = (Return tt, logged w (concat (imap (λ j, history_row (i + j)) rows))).
Proof.
  revert i w. induction rows as [|[req act] rows IH]; intros i w.
  - unfold logged. simpl. rewrite app_nil_r. by destruct w.
  - simpl. run. rewrite IH. unfold logged, set_log. simpl.
    rewrite <- !app_assoc. simpl. rewrite Nat.add_0_r.
    rewrite (imap_ext (λ j, history_row (S (i + j)))
               ((λ j, history_row (i + j)) ∘ S) rows); [done|].
    intros j x _. simpl. by rewrite Nat.add_succ_r.
Qed.

Lemma display_history_eq h w :
  display_history h w = (Return tt, logged w (history_events h)).
Proof.
  destruct h as [|entry h].
  - unfold logged. simpl. rewrite app_nil_r. by destruct w.
  - unfold display_history, history_events, bind, emit. cbv beta iota.
    rewrite display_history_rows_run. unfold logged, set_log. simpl.
    by rewrite <- !app_assoc.
Qed.

(** X16. [display_history] changes nothing but the page. It shows nothing
    for an empty history; otherwise one expander and then every entry
    once, in order, the entry at position [i] under the number [i+1] and
    followed by a divider. *)
Theorem display_history_shows h w :
  display_history h w = (Return tt, logged w (history_events h))
  ∧ ∀ i entry, h !! i = Some entry →
      ∀ e, e ∈ history_row i entry → e ∈ history_events h.
Proof.
  split; [apply display_history_eq|].
  intros i entry Hi e He. destruct h as [|x h]; [done|].
  unfold history_events. right.
  apply list_elem_of_In, in_concat. exists (history_row i entry).
  split; [|by apply list_elem_of_In].
  apply list_elem_of_In, list_elem_of_lookup. exists i.
  by rewrite list_lookup_imap, Hi.
Qed.

(** ** The authenticated script *)

Section Authenticated.

Context (env : Env).

Lemma display_history_keeps h R `{!PreOrder R} :
  log_blind R → keeps R (display_history h).
Proof. intros HL w. rewrite display_history_eq. apply HL. Qed.

(** X17. Pressing "Reset Vector Index" when the OS lets both artifacts go:
    the artifacts are deleted, the session's index is dropped and the
    script asks for a rerun before it reads the request, so nothing is
    processed and the history is untouched. *)
Theorem main_authenticated_reset ui w :
  reset_index ui = true →
  removable (fs w) (FAISS_FILE env) = true →
  removable (fs w) (PKL_FILE env) = true →
  main_authenticated env ui w =
    (Raise RerunException,
     {| fs := delete (PKL_FILE env) (delete (FAISS_FILE env) (fs w));
        environ := environ w;
        session := {| history := history (session w);
                      api_key_valid := true;
                      vectorstore := None |};
        log := log w ++ PAGE_TOP
                 ++ [StSuccess (lit "Vector index reset successfully!")] |}).
Proof.
  intros Hr HF HP. unfold main_authenticated, set_api_key_valid, set_vectorstore.
  run. rewrite Hr. rewrite reset_vectorstore_cases. simpl. rewrite HF, HP. simpl.
  unfold set_log, set_fs, set_session, PAGE_TOP. simpl.
  by rewrite <- !app_assoc.
Qed.

(** X18. Pressing "Clear" (without a reset) only asks for a rerun: the
    page top and the input section are rendered and nothing else happens;
    no index is set up and no request is processed. *)
Theorem main_authenticated_clear ui w :
  reset_index ui = false →
  clear_button ui = true →
  main_authenticated env ui w =
    (Raise RerunException,
     logged (with_key_valid w) (PAGE_TOP ++ [StRender (lit "input_section")])).
Proof.
  intros Hr Hc. unfold main_authenticated, set_api_key_valid. run.
  rewrite Hr, Hc. simpl.
  unfold logged, with_key_valid, set_log, set_session, PAGE_TOP. simpl.
  by rewrite <- !app_assoc.
Qed.

Lemma history_grows_bind_pre {A B} (m : M A) (k : A → M B) :
  keeps (same session_history) m → (∀ a, keeps history_grows (k a)) →
  keeps history_grows (bind m k).
Proof.
  intros Hm Hk w. unfold bind. specialize (Hm w).
  destruct (m w) as [[a|s] w1]; simpl in *.
  - destruct (Hk a w1) as (tail & Ht & Hl). exists tail.
    unfold same, session_history in Hm. by rewrite Ht, Hm.
  - exists []. unfold same, session_history in Hm.
    rewrite Hm, app_nil_r. split; [done | simpl; lia].
Qed.

Lemma history_grows_bind_post {A B} (m : M A) (k : A → M B) :
  keeps history_grows m → (∀ a, keeps (same session_history) (k a)) →
  keeps history_grows (bind m k).
Proof.
  intros Hm Hk w. unfold bind. specialize (Hm w).
  destruct (m w) as [[a|s] w1]; simpl in *; [|done].
  destruct Hm as (tail & Ht & Hl). exists tail.
  specialize (Hk a w1). unfold same, session_history in Hk. by rewrite Hk.
Qed.

(** X19. One run of the authenticated script, whatever the buttons and
    the libraries do, leaves the environment alone, only adds to the log,
    and never drops or reorders history entries: the history after is the
    history before with at most one entry appended. *)
Theorem main_authenticated_history ui w :
  let r := main_authenticated env ui w in
  history_grows w r.2
  ∧ environ r.2 = environ w
  ∧ ∃ es, log r.2 = log w ++ es.
Proof.
  simpl. split; [|split].
  - revert w. change (keeps history_grows (main_authenticated env ui)).
    unfold main_authenticated.
    do 7 (apply history_grows_bind_pre;
          [ first
              [ apply main_vectorstore_setup_keeps; [apply _| | |]; by intros ? ?
              | frame; apply reset_vectorstore_keeps; [apply _| |]; by intros ? ?
              | by frame ]
          | intros ? ]).
    apply history_grows_bind_post.
    + intros w. apply main_process_request_history.
    + intros _. apply keeps_bind; [apply _|apply keeps_get_session; apply _|].
      intros s. apply display_history_keeps; [apply _|by intros ? ?].
  - revert w. change (keeps (same environ) (main_authenticated env ui)).
    unfold main_authenticated. frame.
    intros s. apply display_history_keeps; [apply _|by intros ? ?].
  - revert w. change (keeps log_extends (main_authenticated env ui)).
    assert (session_blind log_extends) as HS by exact log_extends_session_blind.
    unfold main_authenticated. frame.
    intros s. apply display_history_keeps; [apply _|blind].
Qed.

End Authenticated.

(** ** The API key form *)

Section Form.

Context (env : Env) (dot : Dotenv).


Lemma render_api_key_form_idle form w :
  submitted form = false ∨ form_api_key form = [] →
  render_api_key_form env dot form w = (Return false, logged w FORM_PAGE).
Proof.
  intros H. unfold render_api_key_form, logged, FORM_PAGE. run.
  assert (match submitted form, form_api_key form with
          | true, _ :: _ => False
          | _, _ => True
          end) as Hm.
  { destruct H as [-> | ->]; [done|]. by destruct (submitted form). }
  destruct (submitted form), (form_api_key form); try done;
    unfold set_log; simpl; by rewrite <- !app_assoc.
Qed.

Lemma render_api_key_form_refused form w e :
  submitted form = true →
  form_api_key form ≠ [] →
  ChatGoogleGenerativeAI env LLM_MODEL (form_api_key form) = Some e →
  render_api_key_form env dot form w =
    (Return false,
     logged w (FORM_PAGE ++
       [StSpinner (lit "Validating API key...");
        CallChatModel LLM_MODEL (form_api_key form);
        StError (lit "Invalid API key: " ++ exn_msg e);
        StInfo (lit "Please check your API key and try again.")])).
Proof.
  intros Hs Hk He. unfold render_api_key_form, logged, FORM_PAGE. run.
  rewrite Hs. destruct (form_api_key form) as [|c key] eqn:Ek; [done|].
  rewrite validate_api_key_nonempty, He. simpl.
  unfold logged, set_log; simpl. by rewrite <- !app_assoc.
Qed.


Lemma render_api_key_form_rejected_run form w :
  form_rejected env form →
  ∃ es, render_api_key_form env dot form w = (Return false, logged w es)
        ∧ (submitted form = false ∨ form_api_key form = [] → es = FORM_PAGE).
Proof.
  intros H.
  destruct (submitted form) eqn:Hs.
  2: { exists FORM_PAGE. by rewrite render_api_key_form_idle by (left; done). }
  destruct (form_api_key form) as [|c key] eqn:Hk.
  { exists FORM_PAGE. by rewrite render_api_key_form_idle by (right; done). }
  destruct H as [H | [H | [e He]]]; [congruence|congruence|].
  eexists. rewrite (render_api_key_form_refused form w e)
    by (done || by rewrite Hk).
  split; [done|]. intros [|]; congruence.
Qed.

(** X20. A form that is not submitted, or whose field is empty, or whose
    key the chat model rejects, answers [False] and stores nothing: the
    disk, the environment and the session are as before. The chat model is
    asked only for a submitted, non-empty key. *)
Theorem render_api_key_form_rejects form w :
  form_rejected env form →
  let r := render_api_key_form env dot form w in
  r.1 = Return false
  ∧ fs r.2 = fs w ∧ environ r.2 = environ w ∧ session r.2 = session w
  ∧ (submitted form = false ∨ form_api_key form = [] →
     log r.2 = log w ++ FORM_PAGE).
Proof.
  intros H. simpl.
  destruct (render_api_key_form_rejected_run form w H) as (es & -> & Hes).
  simpl. repeat split; try done. intros Hi. by rewrite (Hes Hi).
Qed.




End Form.

(** ** The entry point *)

Section Main.

Context (env : Env) (dot : Dotenv).

(** X23. Once the session's key is marked valid, [main] neither validates
    again nor shows the form, whatever the environment holds: it is the
    authenticated script, run after the page configuration and
    [load_dotenv]. *)
Theorem main_validated form ui w :
  api_key_valid (session w) = true →
  main env dot form ui w = main_authenticated env ui (at_gate dot w).
Proof.
  intros Hv. unfold main, dotenv_load, os_getenv, at_gate, logged.
  fold GOOGLE_API_KEY. run. rewrite Hv.
  assert (∀ l, set_environ (load_dotenv dot (fs w) (environ w))
                 (set_log l w)
               = {| fs := fs w;
                    environ := load_dotenv dot (fs w) (environ w);
                    session := session w;
                    log := l |}) as Hw by done.
  destruct (load_dotenv dot (fs w) (environ w) !! GOOGLE_API_KEY)
    as [[|c k]|]; simpl; rewrite ?Hv; simpl;
    unfold set_environ, set_log; simpl; by rewrite <- !app_assoc.
Qed.

(** X24. A key from the environment that the chat model accepts opens the
    gate without the form: [main] is the authenticated script, run after
    that one validation. *)
Theorem main_environment_key form ui w :
  api_key_valid (session w) = false →
  environment_key_accepted env (environ (at_gate dot w)) = true →
  main env dot form ui w =
    main_authenticated env ui
      (logged (at_gate dot w)
         [CallChatModel LLM_MODEL
            (default [] (environ (at_gate dot w) !! GOOGLE_API_KEY))]).
Proof.
  intros Hv Ha. unfold main, dotenv_load, os_getenv, at_gate, logged in *.
  fold GOOGLE_API_KEY. unfold environment_key_accepted in Ha. simpl in Ha.
  run. rewrite Hv.
  destruct (load_dotenv dot (fs w) (environ w) !! GOOGLE_API_KEY)
    as [[|c k]|]; simpl; try done.
  unfold new_chat_model. run.
  destruct (ChatGoogleGenerativeAI env LLM_MODEL (c :: k)); [done|].
  simpl. rewrite ?Hv.
  unfold logged, set_environ, set_log; simpl. by rewrite <- !app_assoc.
Qed.




End Main.

(** ** The theorems at sample installations *)

Transparent lit.

(** X8 at a backend that is unavailable. *)
Lemma main_process_request_failure_witness :
  let env := faulty_env in
  let ui := sample_request in
  let w := serving_world in
  let r := main_process_request env ui w in
  submit_button ui = true
  ∧ input_text ui ≠ []
  ∧ vectorstore (session w) = Some SIMPLE_STORE
  ∧ (main_request_body env SIMPLE_STORE (input_text ui) w).1
      = Raise (Exception UNAVAILABLE)
  ∧ history (session r.2) = history (session w)
  ∧ session r.2 = session w
  ∧ ∃ es, log r.2 = log w ++ es
           ++ [StError (lit "An error occurred: " ++ exn_msg UNAVAILABLE)].
Proof.
  intros env ui w r.
  assert (submit_button ui = true) as H1 by reflexivity.
  assert (input_text ui ≠ []) as H2 by (vm_compute; discriminate).
  assert (vectorstore (session w) = Some SIMPLE_STORE) as H3 by reflexivity.
  assert ((main_request_body env SIMPLE_STORE (input_text ui) w).1
            = Raise (Exception UNAVAILABLE)) as H4 by (vm_compute; reflexivity).
  repeat (split; [assumption|]).
  exact (main_process_request_failure env ui w SIMPLE_STORE UNAVAILABLE
           H1 H2 H3 H4).
Defined.

(** X9 at a run in which no button was pressed. *)
Lemma main_process_request_idle_witness :
  (submit_button idle_widgets = false ∨ input_text idle_widgets = []
     ∨ vectorstore (session serving_world) = None)
  ∧ main_process_request faulty_env idle_widgets serving_world
      = (Return tt, serving_world).
Proof.
  assert (submit_button idle_widgets = false ∨ input_text idle_widgets = []
            ∨ vectorstore (session serving_world) = None) as H
    by (left; reflexivity).
  split; [exact H|].
  exact (main_process_request_idle faulty_env idle_widgets serving_world H).
Defined.

(** X17 at an installation with both artifacts on disk. *)
Lemma main_authenticated_reset_witness :
  let env := sample_env [] in
  let ui := reset_widgets in
  let w := indexed_world plain_file plain_file in
  reset_index ui = true
  ∧ removable (fs w) (FAISS_FILE env) = true
  ∧ removable (fs w) (PKL_FILE env) = true
  ∧ main_authenticated env ui w =
      (Raise RerunException,
       {| fs := delete (PKL_FILE env) (delete (FAISS_FILE env) (fs w));
          environ := environ w;
          session := {| history := history (session w);
                        api_key_valid := true;
                        vectorstore := None |};
          log := log w ++ PAGE_TOP
                   ++ [StSuccess (lit "Vector index reset successfully!")] |}).
Proof.
  intros env ui w.
  assert (reset_index ui = true) as H1 by reflexivity.
  assert (removable (fs w) (FAISS_FILE env) = true) as H2
    by (vm_compute; reflexivity).
  assert (removable (fs w) (PKL_FILE env) = true) as H3
    by (vm_compute; reflexivity).
  repeat (split; [assumption|]).
  exact (main_authenticated_reset env ui w H1 H2 H3).
Defined.

(** X18 at a run in which "Clear" was pressed. *)
Lemma main_authenticated_clear_witness :
  reset_index clear_widgets = false
  ∧ clear_button clear_widgets = true
  ∧ main_authenticated faulty_env clear_widgets serving_world =
      (Raise RerunException,
       logged (with_key_valid serving_world)
         (PAGE_TOP ++ [StRender (lit "input_section")])).
Proof.
  assert (reset_index clear_widgets = false) as H1 by reflexivity.
  assert (clear_button clear_widgets = true) as H2 by reflexivity.
  repeat (split; [assumption|]).
  exact (main_authenticated_clear faulty_env clear_widgets serving_world H1 H2).
Defined.

Lemma filled_form_rejected : form_rejected rejecting_env filled_form.
Proof. right; right. eexists. reflexivity. Qed.


(** X20 at a typed key that the chat model rejects. *)
Lemma render_api_key_form_rejects_witness :
  let r := render_api_key_form rejecting_env bare_host filled_form visitor_world in
  form_rejected rejecting_env filled_form
  ∧ r.1 = Return false
  ∧ fs r.2 = fs visitor_world ∧ environ r.2 = environ visitor_world
  ∧ session r.2 = session visitor_world
  ∧ (submitted filled_form = false ∨ form_api_key filled_form = [] →
     log r.2 = log visitor_world ++ FORM_PAGE).
Proof.
  intros r. split; [exact filled_form_rejected|].
  exact (render_api_key_form_rejects rejecting_env bare_host filled_form
           visitor_world filled_form_rejected).
Defined.



(** X23 at a session whose key is already validated. *)
Lemma main_validated_witness :
  api_key_valid (session serving_world) = true
  ∧ main faulty_env bare_host untouched_form idle_widgets serving_world
    = main_authenticated faulty_env idle_widgets (at_gate bare_host serving_world).
Proof.
  assert (api_key_valid (session serving_world) = true) as H by reflexivity.
  split; [exact H|].
  exact (main_validated faulty_env bare_host untouched_form idle_widgets
           serving_world H).
Defined.

(** X24 at a visit with an accepted key in the environment. *)
Lemma main_environment_key_witness :
  let env := sample_env [] in
  let w := returning_world in
  api_key_valid (session w) = false
  ∧ environment_key_accepted env (environ (at_gate bare_host w)) = true
  ∧ main env bare_host untouched_form idle_widgets w =
      main_authenticated env idle_widgets
        (logged (at_gate bare_host w)
           [CallChatModel LLM_MODEL
              (default [] (environ (at_gate bare_host w) !! GOOGLE_API_KEY))]).
Proof.
  intros env w.
  assert (api_key_valid (session w) = false) as H1 by reflexivity.
  assert (environment_key_accepted env (environ (at_gate bare_host w)) = true)
    as H2 by (vm_compute; reflexivity).
  repeat (split; [assumption|]).
  exact (main_environment_key env bare_host untouched_form idle_widgets w H1 H2).
Defined.



(** X27 at an answer of one line. *)
Lemma main_action_type_unterminated_witness :
  (∀ m, (m < length (@nil N))%nat →
        ¬ occurs_at ACTION_LABEL ([] ++ ACTION_LABEL ++ lit " Update") m)
  ∧ (10%N ∉ lit " Update")
  ∧ main_action_type ([] ++ ACTION_LABEL ++ lit " Update")
      = strip (take (length (lit " Update") - 1) (lit " Update")).
Proof.
  assert (∀ m, (m < length (@nil N))%nat →
            ¬ occurs_at ACTION_LABEL ([] ++ ACTION_LABEL ++ lit " Update") m)
    as H1 by (intros m Hm; simpl in Hm; lia).
  assert (10%N ∉ lit " Update") as H2.
  { intros Hin. vm_compute in Hin.
    repeat (apply elem_of_cons in Hin as [Hin|Hin]; [discriminate Hin|]).
    by apply elem_of_nil in Hin. }
  split; [exact H1|]. split; [exact H2|].
  exact (main_action_type_unterminated [] (lit " Update") H1 H2).
Defined.

Opaque lit.
